(** * NYC Airbnb prediction service: serving-time and training-time
      feature engineering, vector alignment and the two prediction handlers.

    The development embeds [backend/app.py] (module [App]) and, of
    [ml_models/train_models.py], the feature engineering, the data
    generator and the start of [main] (module [Train]).

    Conventions of the embedding.
    - A Python/JSON value is a [pyval].  A finite double is represented by
      the rational it denotes ([Fin q]); rounding to 53 bits is not
      modelled, but the two non-finite classes ([Inf], [NaN]) and the
      overflow threshold of the int-to-float conversion are, because they
      decide whether an operation raises.  The one place where rounding
      is modelled is the conversion of an int64 column to float64 in the
      training frame ([Train.int64_to_float]): there the operand is
      rounded before the division, where Python rounds the quotient.
    - A Python exception is a value of [exn]; code that may raise returns
      a [result].
    - The persistence backend, the request body and the random generator
      are inputs of a handler, gathered in a [world]. *)

From Stdlib Require Import ZArith QArith Qabs String Lia.
From stdpp Require Import gmap strings list fin_maps.

#[local] Set Warnings "-register-all".
#[local] Open Scope string_scope.

(** ** Exceptions and fallible computations *)

Inductive exn : Type :=
| TypeError
| ValueError (msg : string)
| AttributeError
| KeyError
| IndexError
| ZeroDivisionError
| OverflowError
| HTTPException (code : Z)
| ExternalError (msg : string).

Inductive result (A : Type) : Type :=
| Ok (a : A)
| Raise (e : exn).
Arguments Ok {A} a.
Arguments Raise {A} e.

Definition rbind {A B} (m : result A) (k : A -> result B) : result B :=
  match m with
  | Ok a => k a
  | Raise e => Raise e
  end.

Notation "'try!' x <- m ; k" := (rbind m (fun x => k))
  (at level 10, x name, m at level 100, k at level 200).

(** ** Python values *)

Inductive pyfloat : Type :=
| Fin (q : Q)
| Inf (negative : bool)
| NaN.

Inductive pyval : Type :=
| PNone
| PBool (b : bool)
| PInt (z : Z)
| PFloat (f : pyfloat)
| PStr (s : string)
| PList (l : list pyval)
| PDict (d : gmap string pyval).

Module Py.

(** Smallest magnitude that no longer rounds to a finite double:
    [DBL_MAX] plus half a unit in the last place. *)
Definition overflow_bound : Z := 2 ^ 1024 - 2 ^ 970.

Definition Qlt_bool (a b : Q) : bool := negb (Qle_bool b a).

Definition Qneg (q : Q) : bool := Qlt_bool q 0.

(** The double nearest to a rational, as far as finiteness goes. *)
Definition round_finite (q : Q) : pyfloat :=
  if Qle_bool (inject_Z overflow_bound) (Qabs q) then Inf (Qneg q) else Fin (Qred q).

(** [float(n)] for an int [n]. *)
Definition int_to_float (z : Z) : result pyfloat :=
  if (Z.abs z <? overflow_bound)%Z then Ok (Fin (inject_Z z)) else Raise OverflowError.

Definition float_ltb (x y : pyfloat) : bool :=
  match x, y with
  | NaN, _ | _, NaN => false
  | Fin a, Fin b => Qlt_bool a b
  | Inf true, Inf true => false
  | Inf true, _ => true
  | Fin _, Inf negative => negb negative
  | Inf false, _ => false
  end.

Definition float_gtb (x y : pyfloat) : bool := float_ltb y x.

Definition float_is_zero (x : pyfloat) : bool :=
  match x with Fin q => Qeq_bool q 0 | _ => false end.

(** IEEE division by a non-zero divisor. *)
Definition float_div (x y : pyfloat) : pyfloat :=
  match x, y with
  | NaN, _ | _, NaN => NaN
  | Inf _, Inf _ => NaN
  | Inf s, Fin b => Inf (xorb s (Qneg b))
  | Fin _, Inf _ => Fin 0
  | Fin a, Fin b => round_finite (a / b)
  end.

(** The number an int, a bool or a float denotes, without conversion. *)
Definition as_int (v : pyval) : option Z :=
  match v with
  | PInt z => Some z
  | PBool b => Some (if b then 1 else 0)%Z
  | _ => None
  end.

(** [a / b] *)
Definition truediv (a b : pyval) : result pyval :=
  match as_int a, as_int b with
  | Some x, Some y =>
      if (y =? 0)%Z then Raise ZeroDivisionError
      else match round_finite (inject_Z x / inject_Z y) with
           | Fin q => Ok (PFloat (Fin q))
           | _ => Raise OverflowError
           end
  | Some x, None =>
      match b with
      | PFloat y =>
          try! fx <- int_to_float x;
          if float_is_zero y then Raise ZeroDivisionError
          else Ok (PFloat (float_div fx y))
      | _ => Raise TypeError
      end
  | None, Some y =>
      match a with
      | PFloat x =>
          try! fy <- int_to_float y;
          if float_is_zero fy then Raise ZeroDivisionError
          else Ok (PFloat (float_div x fy))
      | _ => Raise TypeError
      end
  | None, None =>
      match a, b with
      | PFloat x, PFloat y =>
          if float_is_zero y then Raise ZeroDivisionError
          else Ok (PFloat (float_div x y))
      | _, _ => Raise TypeError
      end
  end.

(** [v > n] for an int literal [n]; ints and floats compare exactly. *)
Definition gt_int (v : pyval) (n : Z) : result bool :=
  match v with
  | PInt _ | PBool _ =>
      match as_int v with
      | Some z => Ok (n <? z)%Z
      | None => Raise TypeError
      end
  | PFloat f => Ok (float_gtb f (Fin (inject_Z n)))
  | _ => Raise TypeError
  end.

(** [v == s] for a string literal [s]. *)
Definition eq_str (v : pyval) (s : string) : bool :=
  match v with
  | PStr t => String.eqb t s
  | _ => false
  end.

(** Truth value of a JSON value. *)
Definition truthy (v : pyval) : bool :=
  match v with
  | PNone => false
  | PBool b => b
  | PInt z => negb (z =? 0)%Z
  | PFloat f => negb (float_is_zero f)
  | PStr s => negb (String.eqb s "")
  | PList l => match l with [] => false | _ => true end
  | PDict d => negb (bool_decide (d = ∅))
  end.

(** [v.get(key, default)]: only dicts have a [get]. *)
Definition get (v : pyval) (key : string) (default : pyval) : result pyval :=
  match v with
  | PDict d => Ok (match d !! key with Some x => x | None => default end)
  | _ => Raise AttributeError
  end.

(** [v[key]] for a string key. *)
Definition getitem (v : pyval) (key : string) : result pyval :=
  match v with
  | PDict d => match d !! key with Some x => Ok x | None => Raise KeyError end
  | _ => Raise TypeError
  end.

(** [v[0]] *)
Definition getitem0 (v : pyval) : result pyval :=
  match v with
  | PList l => match l with x :: _ => Ok x | [] => Raise IndexError end
  | PStr s => match s with String c _ => Ok (PStr (String c "")) | EmptyString => Raise IndexError end
  | PDict _ => Raise KeyError
  | _ => Raise TypeError
  end.

(** [d[key]] on a dict the code built itself. *)
Definition item (d : gmap string pyval) (key : string) : result pyval :=
  match d !! key with Some x => Ok x | None => Raise KeyError end.

(** Lookup in a dict keyed by strings with an arbitrary key: lists and
    dicts are unhashable, and no other non-string equals a string. *)
Definition table_get (table : gmap string pyval) (key default : pyval) : result pyval :=
  match key with
  | PList _ | PDict _ => Raise TypeError
  | PStr s => Ok (match table !! s with Some x => x | None => default end)
  | _ => Ok default
  end.

(** [max(n, x)] with an int literal first and a float second: the first
    argument is kept unless the second is strictly greater. *)
Definition max_int_float (n : Z) (x : pyfloat) : pyval :=
  if float_gtb x (Fin (inject_Z n)) then PFloat x else PInt n.

(** [np.clip(x, lo, hi)] on a scalar. *)
Definition clip (x lo hi : pyfloat) : pyfloat :=
  match x with
  | NaN => NaN
  | _ => if float_ltb x lo then lo else if float_gtb x hi then hi else x
  end.

End Py.

(** ** The serving application, [backend/app.py] *)

Module App.

(** A trained model, seen through [model.predict(feature_array)[0]]: a
    fixed function of the feature vector that may raise. *)
Definition model : Type := list pyfloat -> result pyfloat.

(** The module-level globals set by [load_models]; Python's [None] is
    [None] for the two models and the schema, and [PNone] for the
    metadata document. *)
Record globals : Type := {
  price_model : option model;
  demand_model : option model;
  feature_columns : option (list string);
  metadata : pyval
}.

(** What a request sees of the outside: the outcome of
    [request.get_json()], the draw of [np.random.uniform(0.75, 0.95)] and
    the outcome of [supabase.table('predictions').insert(record).execute()]
    given as the [data] attribute of the response. *)
Record world : Type := {
  request_json : result pyval;
  random_uniform : pyfloat;
  supabase_insert : gmap string pyval -> result pyval
}.

Inductive error_reason : Type :=
| Message (text : string)
| StrOf (e : exn).

Inductive json_body : Type :=
| JsonResult (fields : gmap string pyval)
| JsonError (reason : error_reason).

Record response : Type := {
  body : json_body;
  status : Z
}.

(** Handlers run in a state-and-error monad whose state is the list of
    records handed to the sink so far, latest first. *)
Definition sink_log : Type := list (gmap string pyval).

Definition io (A : Type) : Type := sink_log -> result A * sink_log.

Definition ret {A} (a : A) : io A := fun log => (Ok a, log).

Definition bind {A B} (m : io A) (k : A -> io B) : io B :=
  fun log =>
    match m log with
    | (Ok a, log') => k a log'
    | (Raise e, log') => (Raise e, log')
    end.

Definition lift {A} (r : result A) : io A := fun log => (r, log).

Definition try_except {A} (m : io A) (handler : exn -> io A) : io A :=
  fun log =>
    match m log with
    | (Ok a, log') => (Ok a, log')
    | (Raise e, log') => handler e log'
    end.

Notation "'do!' x <- m ; k" := (bind m (fun x => k))
  (at level 10, x name, m at level 100, k at level 200).

Definition neighbourhood_freq : gmap string pyval :=
  list_to_map
    [ ("Harlem", PFloat (Fin 0.054)); ("Williamsburg", PFloat (Fin 0.078));
      ("Upper West Side", PFloat (Fin 0.042));
      ("Bedford-Stuyvesant", PFloat (Fin 0.076)); ("East Village", PFloat (Fin 0.035));
      ("Brooklyn Heights", PFloat (Fin 0.020));
      ("Astoria", PFloat (Fin 0.028)); ("Bushwick", PFloat (Fin 0.047));
      ("Crown Heights", PFloat (Fin 0.031)); ("Upper East Side", PFloat (Fin 0.034)) ].

(** [1 if v == s else 0] *)
Definition indicator (v : pyval) (s : string) : pyval :=
  if Py.eq_str v s then PInt 1 else PInt 0.

Definition engineer_features (input_data : pyval) : result (gmap string pyval) :=
  try! latitude <- Py.get input_data "latitude" (PFloat (Fin 40.7580));
  try! longitude <- Py.get input_data "longitude" (PFloat (Fin (-73.9855)));
  try! minimum_nights <- Py.get input_data "minimum_nights" (PInt 1);
  try! number_of_reviews <- Py.get input_data "number_of_reviews" (PInt 0);
  try! reviews_per_month <- Py.get input_data "reviews_per_month" (PInt 0);
  try! calculated_host_listings_count <-
    Py.get input_data "calculated_host_listings_count" (PInt 1);
  try! availability_365 <- Py.get input_data "availability_365" (PInt 365);
  let features_dict : gmap string pyval :=
    <["availability_365" := availability_365]>
    (<["calculated_host_listings_count" := calculated_host_listings_count]>
    (<["reviews_per_month" := reviews_per_month]>
    (<["number_of_reviews" := number_of_reviews]>
    (<["minimum_nights" := minimum_nights]>
    (<["longitude" := longitude]>
    (<["latitude" := latitude]> ∅)))))) in
  try! a365 <- Py.item features_dict "availability_365";
  try! availability_ratio <- Py.truediv a365 (PInt 365);
  let features_dict := <["availability_ratio" := availability_ratio]> features_dict in
  try! reviews <- Py.item features_dict "number_of_reviews";
  try! has_reviews <- Py.gt_int reviews 0;
  try! reviews_density <-
    (if has_reviews then
       try! rpm <- Py.item features_dict "reviews_per_month";
       try! n <- Py.item features_dict "number_of_reviews";
       Py.truediv rpm n
     else Ok (PInt 0));
  let features_dict := <["reviews_density" := reviews_density]> features_dict in
  try! nights <- Py.item features_dict "minimum_nights";
  try! min_nights_ratio <- Py.truediv nights (PInt 365);
  let features_dict := <["min_nights_ratio" := min_nights_ratio]> features_dict in
  try! room_type <- Py.get input_data "room_type" (PStr "Entire home/apt");
  let features_dict :=
    <["room_type_Shared room" := indicator room_type "Shared room"]>
    (<["room_type_Private room" := indicator room_type "Private room"]>
    (<["room_type_Entire home/apt" := indicator room_type "Entire home/apt"]>
       features_dict)) in
  try! neighbourhood_group <- Py.get input_data "neighbourhood_group" (PStr "Manhattan");
  let features_dict :=
    <["neighbourhood_group_Staten Island" := indicator neighbourhood_group "Staten Island"]>
    (<["neighbourhood_group_Queens" := indicator neighbourhood_group "Queens"]>
    (<["neighbourhood_group_Manhattan" := indicator neighbourhood_group "Manhattan"]>
    (<["neighbourhood_group_Brooklyn" := indicator neighbourhood_group "Brooklyn"]>
    (<["neighbourhood_group_Bronx" := indicator neighbourhood_group "Bronx"]>
       features_dict)))) in
  try! neighbourhood <- Py.get input_data "neighbourhood" (PStr "Harlem");
  try! neighbourhood_encoded <-
    Py.table_get neighbourhood_freq neighbourhood (PFloat (Fin 0.01));
  Ok (<["neighbourhood_encoded" := neighbourhood_encoded]> features_dict).

Section Serving.

(** Two library conversions are left open: what numpy stores when a float
    array element is assigned something that is not a number (a string, a
    sequence, [None], a dict), and [str()] of a value that is not a
    string. *)
Variable np_convert_object : pyval -> result pyfloat.
Variable py_str_other : pyval -> string.

(** [feature_array[i] = v] on a float64 array: the stored double. *)
Definition np_store (v : pyval) : result pyfloat :=
  match v with
  | PFloat f => Ok f
  | PInt z => Py.int_to_float z
  | PBool b => Ok (Fin (if b then 1 else 0))
  | _ => np_convert_object v
  end.

(** [f"{v}"] *)
Definition py_format (v : pyval) : string :=
  match v with
  | PStr s => s
  | _ => py_str_other v
  end.

Definition enumerate {A} (l : list A) : list (nat * A) :=
  zip (seq 0 (length l)) l.

(** The loop of [prepare_features_array] over [enumerate(feature_columns)]. *)
Fixpoint fill_features (cols : list (nat * string)) (features_dict : gmap string pyval)
    (feature_array : list pyfloat) : result (list pyfloat) :=
  match cols with
  | [] => Ok feature_array
  | (i, col) :: rest =>
      match features_dict !! col with
      | Some v =>
          try! x <- np_store v;
          fill_features rest features_dict (<[i := x]> feature_array)
      | None => fill_features rest features_dict feature_array
      end
  end.

(** The returned array has shape (1, n); it is represented by its row. *)
Definition prepare_features_array (feature_columns : option (list string))
    (features_dict : gmap string pyval) : result (list pyfloat) :=
  match feature_columns with
  | None => Raise (ValueError "Feature columns not loaded")
  | Some cols =>
      fill_features (enumerate cols) features_dict (replicate (length cols) (Fin 0))
  end.

(** [metadata[kind]['version'] if metadata else '1.0'] *)
Definition metadata_version (metadata : pyval) (kind : string) : result pyval :=
  if Py.truthy metadata then
    try! entry <- Py.getitem metadata kind;
    Py.getitem entry "version"
  else Ok (PStr "1.0").

(** [f"<name>-v{metadata[kind]['version']}" if metadata else '<name>-v1.0'] *)
Definition version_tag (metadata : pyval) (kind name : string) : result pyval :=
  if Py.truthy metadata then
    try! entry <- Py.getitem metadata kind;
    try! version <- Py.getitem entry "version";
    Ok (PStr (name ++ "-v" ++ py_format version))
  else Ok (PStr (name ++ "-v1.0")).

(** The inner [try] of both handlers: insert the record, read the id of
    the first returned row, and fall back to [None] on any exception. *)
Definition store_prediction (w : world) (prediction_record : gmap string pyval) : io pyval :=
  try_except
    (fun log =>
       (try! data <- supabase_insert w prediction_record;
        if Py.truthy data then
          try! row <- Py.getitem0 data;
          Py.getitem row "id"
        else Ok PNone,
        prediction_record :: log))
    (fun db_error => ret PNone).

Definition predict_price (g : globals) (w : world) : io response :=
  match price_model g with
  | None => ret {| body := JsonError (Message "Price model not loaded"); status := 500 |}
  | Some price_model =>
      try_except
        (do! input_data <- lift (request_json w);
         do! features_dict <- lift (engineer_features input_data);
         do! feature_array <- lift (prepare_features_array (feature_columns g) features_dict);
         do! raw_price <- lift (price_model feature_array);
         let predicted_price := Py.max_int_float 10 raw_price in
         let confidence := PFloat (random_uniform w) in
         do! version <- lift (metadata_version (metadata g) "price_model");
         let prediction_record : gmap string pyval :=
           <["input_features" := PDict features_dict]>
           (<["model_version" := version]>
           (<["confidence_score" := confidence]>
           (<["predicted_value" := predicted_price]>
           (<["prediction_type" := PStr "price"]> ∅)))) in
         do! prediction_id <- store_prediction w prediction_record;
         do! tag <- lift (version_tag (metadata g) "price_model" "RandomForestRegressor");
         let result : gmap string pyval :=
           <["model_version" := tag]>
           (<["confidence" := confidence]>
           (<["predicted_price" := predicted_price]>
           (<["prediction_id" := prediction_id]> ∅))) in
         ret {| body := JsonResult result; status := 200 |})
        (fun e => ret {| body := JsonError (StrOf e); status := 500 |})
  end.

Definition predict_demand (g : globals) (w : world) : io response :=
  match demand_model g with
  | None => ret {| body := JsonError (Message "Demand model not loaded"); status := 500 |}
  | Some demand_model =>
      try_except
        (do! input_data <- lift (request_json w);
         do! features_dict <- lift (engineer_features input_data);
         do! feature_array <- lift (prepare_features_array (feature_columns g) features_dict);
         do! raw_score <- lift (demand_model feature_array);
         let probability := Py.clip raw_score (Fin 0) (Fin 1) in
         let predicted_class :=
           if Py.float_gtb probability (Fin 0.5) then PStr "high-demand"
           else PStr "low-demand" in
         do! version <- lift (metadata_version (metadata g) "demand_model");
         let prediction_record : gmap string pyval :=
           <["input_features" := PDict features_dict]>
           (<["model_version" := version]>
           (<["confidence_score" := PFloat probability]>
           (<["predicted_class" := predicted_class]>
           (<["prediction_type" := PStr "demand"]> ∅)))) in
         do! prediction_id <- store_prediction w prediction_record;
         do! tag <- lift (version_tag (metadata g) "demand_model" "LightGBMClassifier");
         let result : gmap string pyval :=
           <["model_version" := tag]>
           (<["probability" := PFloat probability]>
           (<["predicted_class" := predicted_class]>
           (<["prediction_id" := prediction_id]> ∅))) in
         ret {| body := JsonResult result; status := 200 |})
        (fun e => ret {| body := JsonError (StrOf e); status := 500 |})
  end.

(** One request against an empty sink: the response sent and the records
    handed to the sink. *)
Definition serve (handler : io response) : option response * sink_log :=
  match handler [] with
  | (Ok r, log) => (Some r, log)
  | (Raise _, log) => (None, log)
  end.

End Serving.

(** *** Start-up and the read-only endpoints *)

(** A file of the model directory as [load_models] finds it: missing, or
    stored with the outcome of loading it. *)
Inductive artifact (A : Type) : Type :=
| Missing
| Stored (load : result A).
Arguments Missing {A}.
Arguments Stored {A} load.

Record model_dir : Type := {
  price_model_joblib : artifact model;
  demand_model_pkl : artifact model;
  feature_columns_joblib : artifact (list string);
  metadata_json : artifact pyval
}.

(** The globals as the module initialises them. *)
Definition unloaded : globals :=
  {| price_model := None; demand_model := None; feature_columns := None;
     metadata := PNone |}.

(** The body of the [try] of [load_models] runs in a state-and-error
    monad over the globals. *)
Definition loader : Type := globals -> result unit * globals.

(** [if os.path.exists(file): <global> = load(file)] *)
Definition load_file {A} (file : artifact A) (assign : A -> globals -> globals) : loader :=
  fun g =>
    match file with
    | Missing => (Ok tt, g)
    | Stored (Ok a) => (Ok tt, assign a g)
    | Stored (Raise e) => (Raise e, g)
    end.

Definition and_then (first second : loader) : loader :=
  fun g =>
    match first g with
    | (Ok _, g') => second g'
    | (Raise e, g') => (Raise e, g')
    end.

Definition load_models (g : globals) (dir : model_dir) : globals :=
  snd (and_then
         (load_file (price_model_joblib dir)
            (fun m g => {| price_model := Some m; demand_model := demand_model g;
                           feature_columns := feature_columns g;
                           metadata := metadata g |}))
      (and_then
         (load_file (demand_model_pkl dir)
            (fun m g => {| price_model := price_model g; demand_model := Some m;
                           feature_columns := feature_columns g;
                           metadata := metadata g |}))
      (and_then
         (load_file (feature_columns_joblib dir)
            (fun cols g => {| price_model := price_model g;
                              demand_model := demand_model g;
                              feature_columns := Some cols;
                              metadata := metadata g |}))
         (load_file (metadata_json dir)
            (fun doc g => {| price_model := price_model g;
                             demand_model := demand_model g;
                             feature_columns := feature_columns g;
                             metadata := doc |}))))
         g).

Definition is_loaded {A} (x : option A) : pyval :=
  match x with Some _ => PBool true | None => PBool false end.

Definition health (g : globals) : response :=
  {| body := JsonResult
       (<["models_loaded" :=
            PDict (<["feature_columns" := is_loaded (feature_columns g)]>
                  (<["demand_model" := is_loaded (demand_model g)]>
                  (<["price_model" := is_loaded (price_model g)]> ∅)))]>
        (<["status" := PStr "healthy"]> ∅));
     status := 200 |}.

(** [get_metadata] answers with the metadata document itself, which need
    not be an object. *)
Definition get_metadata (g : globals) : (pyval + error_reason) * Z :=
  match metadata g with
  | PNone => (inr (Message "Metadata not available"), 500%Z)
  | doc => (inl doc, 200%Z)
  end.

(** [get_predictions], given the outcome of the select query as the
    [data] attribute of its response. *)
Definition get_predictions (select : result pyval) : response :=
  match select with
  | Ok data => {| body := JsonResult (<["predictions" := data]> ∅); status := 200 |}
  | Raise e => {| body := JsonError (StrOf e); status := 500 |}
  end.

End App.

(** ** The training pipeline, [ml_models/train_models.py] *)

Module Train.

(** One row of the frame built by [generate_realistic_nyc_airbnb_data],
    with the dtypes of its columns (float64, int64, str). *)
Record listing : Type := {
  latitude : pyfloat;
  longitude : pyfloat;
  room_type : string;
  neighbourhood_group : string;
  neighbourhood : string;
  minimum_nights : Z;
  number_of_reviews : Z;
  reviews_per_month : pyfloat;
  calculated_host_listings_count : Z;
  availability_365 : pyfloat;
  price : pyfloat;
  high_demand : Z
}.

(** A data frame is its list of rows; a row of the engineered frame maps
    column names to cells. *)
Abbreviation frame := (list listing).

Definition cells (r : listing) : gmap string pyval :=
  list_to_map
    [ ("latitude", PFloat (latitude r)); ("longitude", PFloat (longitude r));
      ("room_type", PStr (room_type r));
      ("neighbourhood_group", PStr (neighbourhood_group r));
      ("neighbourhood", PStr (neighbourhood r));
      ("minimum_nights", PInt (minimum_nights r));
      ("number_of_reviews", PInt (number_of_reviews r));
      ("reviews_per_month", PFloat (reviews_per_month r));
      ("calculated_host_listings_count", PInt (calculated_host_listings_count r));
      ("availability_365", PFloat (availability_365 r));
      ("price", PFloat (price r)); ("high_demand", PInt (high_demand r)) ].

(** Element-wise float64 division: a zero divisor gives an infinity or a
    NaN (and a warning), never an exception. *)
Definition np_divide (x y : pyfloat) : pyfloat :=
  if Py.float_is_zero y then
    match x with
    | Fin a => if Qeq_bool a 0 then NaN else Inf (Py.Qneg a)
    | _ => x
    end
  else Py.float_div x y.

(** The integer a double holds for an int64: beyond 53 significant bits
    the conversion rounds to the nearest multiple of the spacing, a tie
    going to the even significand. *)
Definition round_to_double (z : Z) : Z :=
  let a := Z.abs z in
  let e := (Z.log2 a - 52)%Z in
  if (e <=? 0)%Z then z
  else
    let q := (a / 2 ^ e)%Z in
    let r := (a mod 2 ^ e)%Z in
    let half := (2 ^ (e - 1))%Z in
    let q := if (half <? r)%Z || ((r =? half)%Z && Z.odd q) then (q + 1)%Z else q in
    (Z.sgn z * (q * 2 ^ e))%Z.

(** An int64 cell read as float64, as numpy converts it before dividing. *)
Definition int64_to_float (z : Z) : pyfloat := Fin (inject_Z (round_to_double z)).

Definition count (v : string) (col : list string) : nat :=
  length (filter (fun x => x = v) col).

(** [col.value_counts(normalize=True).to_dict()] *)
Definition value_counts (col : list string) : gmap string pyval :=
  list_to_map
    ((fun v => (v, PFloat (Fin (Qred (inject_Z (Z.of_nat (count v col))
                                      / inject_Z (Z.of_nat (length col)))))))
       <$> col).

(** The cells, in one row, of [pd.get_dummies(col, prefix=prefix)]: one
    column per value that occurs in [col]. *)
Definition get_dummies (prefix : string) (col : list string) (value : string)
    : gmap string pyval :=
  list_to_map
    ((fun v => (prefix ++ "_" ++ v, PBool (bool_decide (value = v)))) <$> col).

(** [series.map(table)]: a value missing from the table maps to NaN. *)
Definition map_value (table : gmap string pyval) (v : string) : pyval :=
  match table !! v with Some x => x | None => PFloat NaN end.

Definition engineer_features (df : frame) : list (gmap string pyval) :=
  let neighbourhood_freq := value_counts (neighbourhood <$> df) in
  (fun r =>
     let row := cells r in
     let row :=
       <["availability_ratio" :=
           PFloat (np_divide (availability_365 r) (int64_to_float 365))]> row in
     let row :=
       <["reviews_density" :=
           PFloat (if (0 <? number_of_reviews r)%Z
                   then np_divide (reviews_per_month r)
                          (int64_to_float (number_of_reviews r))
                   else Fin 0)]> row in
     let row :=
       <["min_nights_ratio" :=
           PFloat (np_divide (int64_to_float (minimum_nights r)) (int64_to_float 365))]>
         row in
     let room_type_dummies := get_dummies "room_type" (room_type <$> df) (room_type r) in
     let neighbourhood_group_dummies :=
       get_dummies "neighbourhood_group" (neighbourhood_group <$> df)
         (neighbourhood_group r) in
     let row :=
       <["neighbourhood_encoded" := map_value neighbourhood_freq (neighbourhood r)]> row in
     row ∪ room_type_dummies ∪ neighbourhood_group_dummies)
  <$> df.

(** The neighbourhood names the generator draws from. *)
Definition generator_neighbourhoods : list string :=
  [ "Harlem"; "Williamsburg"; "Upper West Side"; "Bedford-Stuyvesant"; "East Village";
    "Brooklyn Heights"; "Astoria"; "Bushwick"; "Crown Heights"; "Upper East Side" ].

(** The raw record a client sends for a listing: its attributes under the
    names the serving code reads. *)
Definition raw_record (r : listing) : pyval :=
  PDict (list_to_map
    [ ("latitude", PFloat (latitude r)); ("longitude", PFloat (longitude r));
      ("room_type", PStr (room_type r));
      ("neighbourhood_group", PStr (neighbourhood_group r));
      ("neighbourhood", PStr (neighbourhood r));
      ("minimum_nights", PInt (minimum_nights r));
      ("number_of_reviews", PInt (number_of_reviews r));
      ("reviews_per_month", PFloat (reviews_per_month r));
      ("calculated_host_listings_count", PInt (calculated_host_listings_count r));
      ("availability_365", PFloat (availability_365 r)) ]).

(** *** The synthetic data generator and [main] *)

(** Float64 addition. *)
Definition np_add (x y : pyfloat) : pyfloat :=
  match x, y with
  | NaN, _ | _, NaN => NaN
  | Inf s, Inf t => if Bool.eqb s t then Inf s else NaN
  | Inf s, Fin _ | Fin _, Inf s => Inf s
  | Fin a, Fin b => Py.round_finite (a + b)
  end.

Definition np_sum (l : list pyfloat) : pyfloat := foldl np_add (Fin 0) l.

(** [abs(p_sum - 1.) > atol], where [atol] is the square root of the
    float64 epsilon, 2^-26. *)
Definition far_from_one (p_sum : pyfloat) : bool :=
  match p_sum with
  | Fin q => Py.Qlt_bool (1 # 67108864) (Qabs (q - 1))
  | Inf _ => true
  | NaN => false
  end.

(** [np.random.choice(a, size, p=p)]: numpy's checks of the population and
    of the probabilities, in its order; the sample is the random
    generator's and enters as [drawn]. *)
Definition choice {A} (a : list A) (size : nat) (p : option (list pyfloat))
    (drawn : list A) : result (list A) :=
  if (length a =? 0)%nat && negb (size =? 0)%nat
  then Raise (ValueError "'a' cannot be empty unless no samples are taken")
  else
    match p with
    | None => Ok drawn
    | Some p =>
        if negb (length p =? length a)%nat
        then Raise (ValueError "'a' and 'p' must have same size")
        else
          match np_sum p with
          | NaN => Raise (ValueError "probabilities contain NaN")
          | p_sum =>
              if existsb (fun x => Py.float_ltb x (Fin 0)) p
              then Raise (ValueError "probabilities are not non-negative")
              else if far_from_one p_sum
              then Raise (ValueError "probabilities do not sum to 1")
              else Ok drawn
          end
    end.

(** What the random generator hands back, call by call; [uniform] and
    [exponential] return finite doubles. *)
Record draws : Type := {
  uniform_latitude : list Q;
  uniform_longitude : list Q;
  choice_room_type : list string;
  choice_neighbourhood_group : list string;
  choice_neighbourhood : list string;
  choice_minimum_nights : list Z;
  exponential_number_of_reviews : list Q;
  exponential_reviews_per_month : list Q;
  choice_host_listings : list Z;
  uniform_availability : list Q
}.

(** The dict [data] of the generator: ten columns. *)
Record data : Type := {
  data_latitude : list pyfloat;
  data_longitude : list pyfloat;
  data_room_type : list string;
  data_neighbourhood_group : list string;
  data_neighbourhood : list string;
  data_minimum_nights : list Z;
  data_number_of_reviews : list Z;
  data_reviews_per_month : list pyfloat;
  data_calculated_host_listings_count : list Z;
  data_availability_365 : list pyfloat
}.

(** [.astype(int)] of a finite double: truncation towards zero. *)
Definition astype_int (q : Q) : Z := (Qnum q ÷ Z.pos (Qden q))%Z.

Section Pipeline.

(** [np.exp] on one double is left open, and so are the parts of the
    pipeline that follow the dict [data]: lines 29-47 of the generator,
    which build the frame and its labels, and lines 178-257 of [main],
    which engineer features, train and save. *)
Variable np_exp : pyfloat -> pyfloat.
Variable label_frame : data -> result frame.
Variable train_and_save : frame -> result unit.

(** [np.exp(-np.arange(50)/10)] *)
Definition host_listings_weights : list pyfloat :=
  (fun i : Z => np_exp (np_divide (int64_to_float (- i)) (int64_to_float 10)))
  <$> seqZ 0 50.

(** [np.exp(-np.arange(50)/10)/np.sum(np.exp(-np.arange(50)/10))] *)
Definition host_listings_p : list pyfloat :=
  (fun w => np_divide w (np_sum host_listings_weights)) <$> host_listings_weights.

(** The dict literal of lines 16-27, its entries evaluated in order. *)
Definition generator_data (rng : draws) (n_samples : nat) : result data :=
  let latitude := Fin <$> uniform_latitude rng in
  let longitude := Fin <$> uniform_longitude rng in
  try! room_type <-
    choice ["Entire home/apt"; "Private room"; "Shared room"] n_samples
      (Some [Fin 0.5; Fin 0.45; Fin 0.05]) (choice_room_type rng);
  try! neighbourhood_group <-
    choice ["Manhattan"; "Brooklyn"; "Queens"; "Bronx"; "Staten Island"] n_samples
      (Some [Fin 0.40; Fin 0.32; Fin 0.18; Fin 0.07; Fin 0.03])
      (choice_neighbourhood_group rng);
  try! neighbourhood <-
    choice generator_neighbourhoods n_samples None (choice_neighbourhood rng);
  try! minimum_nights <-
    choice [1; 2; 3; 7; 30; 90]%Z n_samples
      (Some [Fin 0.40; Fin 0.20; Fin 0.15; Fin 0.15; Fin 0.07; Fin 0.03])
      (choice_minimum_nights rng);
  let number_of_reviews := astype_int <$> exponential_number_of_reviews rng in
  let reviews_per_month := Fin <$> exponential_reviews_per_month rng in
  try! calculated_host_listings_count <-
    choice (seqZ 1 49) n_samples (Some host_listings_p) (choice_host_listings rng);
  let availability_365 := Fin <$> uniform_availability rng in
  Ok {| data_latitude := latitude; data_longitude := longitude;
        data_room_type := room_type; data_neighbourhood_group := neighbourhood_group;
        data_neighbourhood := neighbourhood; data_minimum_nights := minimum_nights;
        data_number_of_reviews := number_of_reviews;
        data_reviews_per_month := reviews_per_month;
        data_calculated_host_listings_count := calculated_host_listings_count;
        data_availability_365 := availability_365 |}.

Definition generate_realistic_nyc_airbnb_data (rng : draws) (n_samples : nat)
    : result frame :=
  try! data <- generator_data rng n_samples;
  label_frame data.

(** [main]: the directory is made, the data generated, and the rest of the
    pipeline run on it; no step is inside a [try]. *)
Definition main (makedirs : result unit) (rng : draws) : result unit :=
  try! _ <- makedirs;
  try! df <- generate_realistic_nyc_airbnb_data rng 4000;
  train_and_save df.

End Pipeline.

End Train.

(** ** Vocabulary of the statements *)

(** The keys of the mapping [App.engineer_features] returns. *)
Definition feature_names : list string :=
  [ "latitude"; "longitude"; "minimum_nights"; "number_of_reviews"; "reviews_per_month";
    "calculated_host_listings_count"; "availability_365";
    "availability_ratio"; "reviews_density"; "min_nights_ratio";
    "room_type_Entire home/apt"; "room_type_Private room"; "room_type_Shared room";
    "neighbourhood_group_Bronx"; "neighbourhood_group_Brooklyn";
    "neighbourhood_group_Manhattan"; "neighbourhood_group_Queens";
    "neighbourhood_group_Staten Island";
    "neighbourhood_encoded" ].

Definition room_types : list string :=
  [ "Entire home/apt"; "Private room"; "Shared room" ].

Definition neighbourhood_groups : list string :=
  [ "Bronx"; "Brooklyn"; "Manhattan"; "Queens"; "Staten Island" ].

(** The value the code reads for a raw field: the one sent, or the default. *)
Definition field (d : gmap string pyval) (key : string) (default : pyval) : pyval :=
  match d !! key with Some x => x | None => default end.

(** A float, a bool, or an int that a double can hold. *)
Definition in_range_number (v : pyval) : bool :=
  match v with
  | PFloat _ | PBool _ => true
  | PInt z => (Z.abs z <? Py.overflow_bound)%Z
  | _ => false
  end.

Definition hashable (v : pyval) : bool :=
  match v with
  | PList _ | PDict _ => false
  | _ => true
  end.

(** [v == 0] *)
Definition is_zero (v : pyval) : bool :=
  match v with
  | PInt z => (z =? 0)%Z
  | PBool b => negb b
  | PFloat f => Py.float_is_zero f
  | _ => false
  end.

(** [v > 0] holds (and is defined). *)
Definition is_positive (v : pyval) : bool :=
  match Py.gt_int v 0 with Ok b => b | Raise _ => false end.

(** The raw records on which the arithmetic and the table lookup of
    [App.engineer_features] are defined. *)
Definition well_typed (d : gmap string pyval) : bool :=
  in_range_number (field d "availability_365" (PInt 365))
  && in_range_number (field d "minimum_nights" (PInt 1))
  && in_range_number (field d "number_of_reviews" (PInt 0))
  && implb (is_positive (field d "number_of_reviews" (PInt 0)))
           (in_range_number (field d "reviews_per_month" (PInt 0)))
  && hashable (field d "neighbourhood" (PStr "Harlem")).

(** The cell holds the int [n]. *)
Definition holds_int (cell : option pyval) (n : Z) : bool :=
  match cell with
  | Some (PInt z) => (z =? n)%Z
  | _ => false
  end.

(** How many of the indicators [prefix ++ c], for [c] among [categories],
    are set to 1 in [features], and whether all of them are 0 or 1. *)
Definition indicators_set (features : gmap string pyval) (prefix : string)
    (categories : list string) : nat :=
  length (List.filter (fun c => holds_int (features !! (prefix ++ c)) 1) categories).

Definition indicators_binary (features : gmap string pyval) (prefix : string)
    (categories : list string) : bool :=
  forallb (fun c => holds_int (features !! (prefix ++ c)) 1
                    || holds_int (features !! (prefix ++ c)) 0)
          categories.

(** The category the value names, if it names one. *)
Definition category_of (v : pyval) (categories : list string) : option string :=
  List.find (Py.eq_str v) categories.

(** The documented default of each raw field copied into the features. *)
Definition raw_defaults : list (string * pyval) :=
  [ ("latitude", PFloat (Fin 40.7580)); ("longitude", PFloat (Fin (-73.9855)));
    ("minimum_nights", PInt 1); ("number_of_reviews", PInt 0);
    ("reviews_per_month", PInt 0); ("calculated_host_listings_count", PInt 1);
    ("availability_365", PInt 365) ].

(** The value is one of the category names. *)
Definition in_enumeration (v : pyval) (categories : list string) : bool :=
  existsb (Py.eq_str v) categories.

(** The mapping [App.engineer_features] builds from a dict, given the
    four values it computes. *)
Definition assemble (d : gmap string pyval) (ratio density nights enc : pyval) : gmap string pyval :=
  let room_type := field d "room_type" (PStr "Entire home/apt") in
  let neighbourhood_group := field d "neighbourhood_group" (PStr "Manhattan") in
  <["neighbourhood_encoded" := enc]>
  (<["neighbourhood_group_Staten Island" := App.indicator neighbourhood_group "Staten Island"]>
  (<["neighbourhood_group_Queens" := App.indicator neighbourhood_group "Queens"]>
  (<["neighbourhood_group_Manhattan" := App.indicator neighbourhood_group "Manhattan"]>
  (<["neighbourhood_group_Brooklyn" := App.indicator neighbourhood_group "Brooklyn"]>
  (<["neighbourhood_group_Bronx" := App.indicator neighbourhood_group "Bronx"]>
  (<["room_type_Shared room" := App.indicator room_type "Shared room"]>
  (<["room_type_Private room" := App.indicator room_type "Private room"]>
  (<["room_type_Entire home/apt" := App.indicator room_type "Entire home/apt"]>
  (<["min_nights_ratio" := nights]>
  (<["reviews_density" := density]>
  (<["availability_ratio" := ratio]>
  (<["availability_365" := field d "availability_365" (PInt 365)]>
  (<["calculated_host_listings_count" := field d "calculated_host_listings_count" (PInt 1)]>
  (<["reviews_per_month" := field d "reviews_per_month" (PInt 0)]>
  (<["number_of_reviews" := field d "number_of_reviews" (PInt 0)]>
  (<["minimum_nights" := field d "minimum_nights" (PInt 1)]>
  (<["longitude" := field d "longitude" (PFloat (Fin (-73.9855)))]>
  (<["latitude" := field d "latitude" (PFloat (Fin 40.7580))]> ∅)))))))))))))))))).

(** The double a number denotes. *)
Definition number_value (v : pyval) : pyfloat :=
  match v with
  | PFloat f => f
  | PInt z => Fin (inject_Z z)
  | PBool b => Fin (if b then 1 else 0)
  | _ => NaN
  end.

(** What the aligner stores for a schema name: the feature's number, or 0
    when the feature set has no such name. *)
Definition aligned_value (features_dict : gmap string pyval) (col : string) : pyfloat :=
  match features_dict !! col with
  | Some v => number_value v
  | None => Fin 0
  end.

(** The id read from the sink's answer, [None] on any exception. *)
Definition prediction_id (outcome : result pyval) : pyval :=
  match (try! data <- outcome;
         if Py.truthy data then try! row <- Py.getitem0 data; Py.getitem row "id"
         else Ok PNone) with
  | Ok id => id
  | Raise _ => PNone
  end.

(** The record and the result of a price prediction. *)
Definition price_record (features_dict : gmap string pyval) (price : pyval)
    (confidence : pyfloat) (version : pyval) : gmap string pyval :=
  <["input_features" := PDict features_dict]>
  (<["model_version" := version]>
  (<["confidence_score" := PFloat confidence]>
  (<["predicted_value" := price]>
  (<["prediction_type" := PStr "price"]> ∅)))).

Definition price_result (id price : pyval) (confidence : pyfloat) (tag : pyval)
    : gmap string pyval :=
  <["model_version" := tag]>
  (<["confidence" := PFloat confidence]>
  (<["predicted_price" := price]>
  (<["prediction_id" := id]> ∅))).

(** The label, the record and the result of a demand prediction. *)
Definition demand_label (probability : pyfloat) : pyval :=
  if Py.float_gtb probability (Fin 0.5) then PStr "high-demand" else PStr "low-demand".

Definition demand_record (features_dict : gmap string pyval) (probability : pyfloat)
    (version : pyval) : gmap string pyval :=
  <["input_features" := PDict features_dict]>
  (<["model_version" := version]>
  (<["confidence_score" := PFloat probability]>
  (<["predicted_class" := demand_label probability]>
  (<["prediction_type" := PStr "demand"]> ∅)))).

Definition demand_result (id : pyval) (probability : pyfloat) (tag : pyval)
    : gmap string pyval :=
  <["model_version" := tag]>
  (<["probability" := PFloat probability]>
  (<["predicted_class" := demand_label probability]>
  (<["prediction_id" := id]> ∅))).

(** The two shapes of a response. *)
Definition error_response (reason : App.error_reason) : App.response :=
  {| App.body := App.JsonError reason; App.status := 500 |}.

Definition ok_response (fields : gmap string pyval) : App.response :=
  {| App.body := App.JsonResult fields; App.status := 200 |}.

(** The steps shared by both handlers up to the model's answer. *)
Definition inference (np_convert_object : pyval -> result pyfloat) (m : App.model)
    (g : App.globals) (w : App.world) : result (gmap string pyval * pyfloat) :=
  try! input_data <- App.request_json w;
  try! features_dict <- App.engineer_features input_data;
  try! feature_array <-
    App.prepare_features_array np_convert_object (App.feature_columns g) features_dict;
  try! raw <- m feature_array;
  Ok (features_dict, raw).

(** [v >= n] for a number [v] and an int [n]. *)
Definition ge_int (v : pyval) (n : Z) : bool :=
  match v with
  | PInt z => (n <=? z)%Z
  | PFloat (Fin q) => Qle_bool (inject_Z n) q
  | PFloat (Inf false) => true
  | _ => false
  end.

(** The same request against a sink whose insert raises [e]. *)
Definition with_failing_sink (w : App.world) (e : exn) : App.world :=
  {| App.request_json := App.request_json w;
     App.random_uniform := App.random_uniform w;
     App.supabase_insert := fun _ => Raise e |}.

(** A response without the listed result fields. *)
Definition forget (keys : list string) (r : App.response) : App.response :=
  {| App.body := match App.body r with
                 | App.JsonResult fields => App.JsonResult (foldr delete fields keys)
                 | App.JsonError reason => App.JsonError reason
                 end;
     App.status := App.status r |}.

(** Instances of the two open library conversions, and a sample request. *)
Definition numpy_rejects : pyval -> result pyfloat := fun _ => Raise TypeError.

Definition str_unknown : pyval -> string := fun _ => "?".

Definition sample_globals : App.globals :=
  {| App.price_model := Some (fun _ => Ok (Fin (-25)));
     App.demand_model := Some (fun _ => Ok (Fin 0.5));
     App.feature_columns := Some feature_names;
     App.metadata := PNone |}.

Definition sample_raw : gmap string pyval :=
  <["room_type" := PStr "Private room"]> {[ "neighbourhood" := PStr "Astoria" ]}.

Definition sample_features : gmap string pyval :=
  assemble sample_raw (PFloat (Fin 1)) (PInt 0) (PFloat (Fin (1 # 365)))
    (PFloat (Fin 0.028)).

Definition sample_world : App.world :=
  {| App.request_json := Ok (PDict sample_raw);
     App.random_uniform := Fin 0.8;
     App.supabase_insert := fun _ => Ok (PList [PDict {[ "id" := PInt 7 ]}]) |}.

(** The sample state with a demand model that answers [score]. *)
Definition scoring_globals (score : pyfloat) : App.globals :=
  {| App.price_model := None;
     App.demand_model := Some (fun _ => Ok score);
     App.feature_columns := Some feature_names;
     App.metadata := PNone |}.

(** The int64 range. *)
Definition int64 (z : Z) : bool := (- 2 ^ 63 <=? z)%Z && (z <? 2 ^ 63)%Z.

(** A row as the generator produces it: a neighbourhood from its list,
    int64 counts. *)
Definition generated (r : Train.listing) : bool :=
  bool_decide (Train.neighbourhood r ∈ Train.generator_neighbourhoods)
  && int64 (Train.minimum_nights r) && int64 (Train.number_of_reviews r).

(** The serving table's value for a name, with its fallback. *)
Definition served_frequency (name : string) : Q :=
  match App.neighbourhood_freq !! name with
  | Some (PFloat (Fin q)) => q
  | _ => 0.01
  end.

(** The relative frequency the training pipeline computes for a name. *)
Definition trained_frequency (col : list string) (name : string) : Q :=
  Qred (inject_Z (Z.of_nat (Train.count name col)) / inject_Z (Z.of_nat (length col))).

Definition sample_listing : Train.listing :=
  {| Train.latitude := Fin 40.8; Train.longitude := Fin (-73.9);
     Train.room_type := "Private room"; Train.neighbourhood_group := "Manhattan";
     Train.neighbourhood := "Harlem"; Train.minimum_nights := 2;
     Train.number_of_reviews := 4; Train.reviews_per_month := Fin 1.5;
     Train.calculated_host_listings_count := 1; Train.availability_365 := Fin 100;
     Train.price := Fin 120; Train.high_demand := 0 |}.

(** *** Vocabulary of the further properties *)

(** The raw fields [App.engineer_features] reads. *)
Definition raw_keys : list string :=
  [ "latitude"; "longitude"; "minimum_nights"; "number_of_reviews"; "reviews_per_month";
    "calculated_host_listings_count"; "availability_365"; "room_type";
    "neighbourhood_group"; "neighbourhood" ].

(** An int, a bool or a float. *)
Definition is_number (v : pyval) : bool :=
  match v with
  | PInt _ | PBool _ | PFloat _ => true
  | _ => false
  end.

(** The rational a finite number denotes. *)
Definition finite_value (v : pyval) : option Q :=
  match v with
  | PInt z => Some (inject_Z z)
  | PBool b => Some (if b then 1 else 0)%Q
  | PFloat (Fin q) => Some q
  | _ => None
  end.

(** A raw record all of whose numeric fields, when present, are numbers a
    double can hold. *)
Definition numeric_raw (d : gmap string pyval) : bool :=
  well_typed d
  && in_range_number (field d "latitude" (PFloat (Fin 40.7580)))
  && in_range_number (field d "longitude" (PFloat (Fin (-73.9855))))
  && in_range_number (field d "reviews_per_month" (PInt 0))
  && in_range_number (field d "calculated_host_listings_count" (PInt 1)).

(** Loading the artifact raises. *)
Definition raises {A} (file : App.artifact A) : bool :=
  match file with App.Stored (Raise _) => true | _ => false end.

(** What loading the artifact yields, when it is stored and loads. *)
Definition loaded {A} (file : App.artifact A) : option A :=
  match file with App.Stored (Ok a) => Some a | _ => None end.

(** The integers every double up to their size can hold: at most 53 bits. *)
Definition double_exact (z : Z) : bool := (Z.abs z <=? 2 ^ 53)%Z.

(** The rows of a frame that carry the neighbourhood [name]. *)
Definition rows_in (df : list Train.listing) (name : string) : list Train.listing :=
  filter (fun r => Train.neighbourhood r = name) df.

(** The numeric features both pipelines compute from the raw attributes. *)
Definition shared_numeric_features : list string :=
  [ "latitude"; "longitude"; "minimum_nights"; "number_of_reviews"; "reviews_per_month";
    "calculated_host_listings_count"; "availability_365";
    "availability_ratio"; "reviews_density"; "min_nights_ratio" ].

(** ** The feature engineer *)

Lemma engineer_features_dict (d : gmap string pyval) :
  App.engineer_features (PDict d) =
  try! ratio <- Py.truediv (field d "availability_365" (PInt 365)) (PInt 365);
  try! has_reviews <- Py.gt_int (field d "number_of_reviews" (PInt 0)) 0;
  try! density <-
    (if has_reviews
     then Py.truediv (field d "reviews_per_month" (PInt 0)) (field d "number_of_reviews" (PInt 0))
     else Ok (PInt 0));
  try! nights <- Py.truediv (field d "minimum_nights" (PInt 1)) (PInt 365);
  try! enc <- Py.table_get App.neighbourhood_freq (field d "neighbourhood" (PStr "Harlem"))
                (PFloat (Fin 0.01));
  Ok (assemble d ratio density nights enc).
Proof.
  unfold App.engineer_features, Py.get. reflexivity.
Qed.

Lemma engineer_features_inv raw fd :
  App.engineer_features raw = Ok fd ->
  exists d ratio density nights enc,
    raw = PDict d /\ fd = assemble d ratio density nights enc
    /\ Py.truediv (field d "availability_365" (PInt 365)) (PInt 365) = Ok ratio
    /\ (exists has_reviews,
          Py.gt_int (field d "number_of_reviews" (PInt 0)) 0 = Ok has_reviews
          /\ (if has_reviews
              then Py.truediv (field d "reviews_per_month" (PInt 0))
                     (field d "number_of_reviews" (PInt 0))
              else Ok (PInt 0)) = Ok density)
    /\ Py.truediv (field d "minimum_nights" (PInt 1)) (PInt 365) = Ok nights
    /\ Py.table_get App.neighbourhood_freq (field d "neighbourhood" (PStr "Harlem"))
         (PFloat (Fin 0.01)) = Ok enc.
Proof.
  intros H.
  destruct raw as [| | | | | |d];
    [change (Raise AttributeError = Ok fd) in H; discriminate H ..|].
  revert H. rewrite engineer_features_dict.
  destruct (Py.truediv (field d "availability_365" _) _) as [ratio|] eqn:Hratio; cbn [rbind]; [|intros [=]].
  destruct (Py.gt_int _ _) as [has|] eqn:Hhas; cbn [rbind]; [|intros [=]].
  destruct (if has then _ else _) as [density|] eqn:Hdens; cbn [rbind]; [|intros [=]].
  destruct (Py.truediv (field d "minimum_nights" _) _) as [nights|] eqn:Hnights; cbn [rbind]; [|intros [=]].
  destruct (Py.table_get _ _ _) as [enc|] eqn:Henc; cbn [rbind]; [|intros [=]].
  intros Hfd. injection Hfd as Hfd. symmetry in Hfd.
  exists d, ratio, density, nights, enc. eauto 10.
Qed.

(** C10: whatever the raw input, a mapping returned by
    [engineer_features] has exactly the 19 feature names as its keys. *)
Theorem engineer_features_keys (raw : pyval) (fd : gmap string pyval) :
  App.engineer_features raw = Ok fd ->
  dom fd = list_to_set feature_names /\ size fd = 19.
Proof.
  intros H. apply engineer_features_inv in H.
  destruct H as (d & ratio & density & nights & enc & -> & -> & _).
  split; reflexivity.
Qed.

Lemma engineer_features_keys_witness :
  dom sample_features = list_to_set feature_names /\ size sample_features = 19.
Proof.
  apply (engineer_features_keys (PDict sample_raw)). reflexivity.
Defined.

(** *** Arithmetic on well-typed fields *)

Lemma int_quotient_below (B x y : Z) :
  (Z.abs x < B)%Z -> y <> 0%Z ->
  Qle_bool (inject_Z B) (Qabs (inject_Z x / inject_Z y)) = false.
Proof.
  intros Hx Hy.
  destruct (Qle_bool _ _) eqn:Hle; [exfalso|reflexivity].
  apply Qle_bool_iff in Hle.
  destruct y as [|p|p]; [congruence| |];
    unfold Qle, Qdiv, Qmult, Qinv, Qabs, inject_Z in Hle; simpl in Hle; nia.
Qed.

Lemma round_finite_int_div (x y : Z) :
  (Z.abs x < Py.overflow_bound)%Z -> y <> 0%Z ->
  exists q, Py.round_finite (inject_Z x / inject_Z y) = Fin q.
Proof.
  intros Hx Hy. unfold Py.round_finite.
  rewrite int_quotient_below by assumption. eauto.
Qed.

Lemma int_to_float_in_range (z : Z) :
  (Z.abs z <? Py.overflow_bound)%Z = true ->
  Py.int_to_float z = Ok (Fin (inject_Z z)).
Proof. intros H. unfold Py.int_to_float. now rewrite H. Qed.

Lemma as_int_in_range (v : pyval) (z : Z) :
  in_range_number v = true -> Py.as_int v = Some z ->
  (Z.abs z < Py.overflow_bound)%Z.
Proof.
  destruct v as [|b|n|f|s|l|d]; try discriminate; cbn.
  - intros _ [= <-]. destruct b; reflexivity.
  - intros H [= <-]. now apply Z.ltb_lt.
Qed.

Lemma positive_int_nonzero (v : pyval) (z : Z) :
  is_positive v = true -> Py.as_int v = Some z -> z <> 0%Z.
Proof.
  unfold is_positive.
  destruct v as [|b|n|f|s|l|d]; try discriminate; cbn.
  - intros H [= <-]. destruct b; [lia|discriminate].
  - intros H [= <-]. apply Z.ltb_lt in H. lia.
Qed.

Lemma positive_float_nonzero (f : pyfloat) :
  is_positive (PFloat f) = true -> Py.float_is_zero f = false.
Proof.
  unfold is_positive. cbn.
  destruct f as [q| |]; try reflexivity. cbn.
  unfold Py.Qlt_bool. intros H.
  destruct (Qeq_bool q 0) eqn:Hq; [|reflexivity].
  apply Qeq_bool_iff in Hq.
  assert (Hle : Qle_bool q (inject_Z 0) = true).
  { apply Qle_bool_iff. rewrite Hq. apply Qle_refl. }
  rewrite Hle in H. discriminate.
Qed.

Lemma truediv_defined (a b : pyval) :
  in_range_number a = true -> in_range_number b = true -> is_positive b = true ->
  exists f, Py.truediv a b = Ok (PFloat f).
Proof.
  intros Ha Hb Hpos. unfold Py.truediv.
  destruct (Py.as_int a) as [x|] eqn:Ea; destruct (Py.as_int b) as [y|] eqn:Eb.
  - pose proof (positive_int_nonzero _ _ Hpos Eb) as Hy.
    apply Z.eqb_neq in Hy as Hy'. rewrite Hy'.
    destruct (round_finite_int_div x y (as_int_in_range _ _ Ha Ea) Hy) as [q ->]. eauto.
  - destruct b as [|?|?|f|?|?|?]; try discriminate.
    rewrite int_to_float_in_range
      by (apply Z.ltb_lt; exact (as_int_in_range _ _ Ha Ea)).
    cbn [rbind]. rewrite (positive_float_nonzero _ Hpos). eauto.
  - destruct a as [|?|?|f|?|?|?]; try discriminate.
    pose proof (as_int_in_range _ _ Hb Eb) as Hr.
    rewrite int_to_float_in_range by (now apply Z.ltb_lt).
    cbn [rbind].
    pose proof (positive_int_nonzero _ _ Hpos Eb) as Hy.
    assert (Hz : Py.float_is_zero (Fin (inject_Z y)) = false).
    { cbn. destruct (Qeq_bool _ _) eqn:Hq; [|reflexivity].
      apply Qeq_bool_iff in Hq. unfold Qeq in Hq. simpl in Hq. lia. }
    rewrite Hz. eauto.
  - destruct a as [|?|?|fa|?|?|?]; try discriminate.
    destruct b as [|?|?|fb|?|?|?]; try discriminate.
    rewrite (positive_float_nonzero _ Hpos). eauto.
Qed.

Lemma gt_int_defined (v : pyval) :
  in_range_number v = true -> Py.gt_int v 0 = Ok (is_positive v).
Proof.
  unfold is_positive.
  destruct v as [|?|?|?|?|?|?]; try discriminate; reflexivity.
Qed.

Lemma gt_int_zero (v : pyval) :
  is_zero v = true -> Py.gt_int v 0 = Ok false.
Proof.
  destruct v as [|b|z|f|?|?|?]; try discriminate; cbn.
  - destruct b; [discriminate|reflexivity].
  - intros H. apply Z.eqb_eq in H. now subst.
  - destruct f as [q| |]; try discriminate. cbn. intros Hq.
    apply Qeq_bool_iff in Hq. unfold Py.Qlt_bool.
    assert (Hle : Qle_bool q (inject_Z 0) = true).
    { apply Qle_bool_iff. rewrite Hq. apply Qle_refl. }
    now rewrite Hle.
Qed.

Lemma table_get_defined (table : gmap string pyval) (key default : pyval) :
  hashable key = true ->
  Py.table_get table key default =
  Ok (match key with
      | PStr s => match table !! s with Some x => x | None => default end
      | _ => default
      end).
Proof. destruct key; try discriminate; reflexivity. Qed.

Lemma engineer_features_defined (d : gmap string pyval) :
  well_typed d = true ->
  exists ratio density nights,
    App.engineer_features (PDict d)
    = Ok (assemble d ratio density nights
            (match field d "neighbourhood" (PStr "Harlem") with
             | PStr s => match App.neighbourhood_freq !! s with
                         | Some x => x
                         | None => PFloat (Fin 0.01)
                         end
             | _ => PFloat (Fin 0.01)
             end))
    /\ (is_zero (field d "number_of_reviews" (PInt 0)) = true -> density = PInt 0).
Proof.
  unfold well_typed. intros H.
  apply andb_prop in H as [H Hhash]. apply andb_prop in H as [H Hrpm].
  apply andb_prop in H as [H Hnr]. apply andb_prop in H as [Hav Hmn].
  destruct (truediv_defined _ (PInt 365) Hav eq_refl eq_refl) as [ratio Hratio].
  destruct (truediv_defined _ (PInt 365) Hmn eq_refl eq_refl) as [nights Hnights].
  assert (Hdens : exists density,
    (if is_positive (field d "number_of_reviews" (PInt 0))
     then Py.truediv (field d "reviews_per_month" (PInt 0))
            (field d "number_of_reviews" (PInt 0))
     else Ok (PInt 0)) = Ok density
    /\ (is_zero (field d "number_of_reviews" (PInt 0)) = true -> density = PInt 0)).
  { destruct (is_positive _) eqn:Hpos.
    - destruct (truediv_defined _ _ Hrpm Hnr Hpos) as [f Hf].
      exists (PFloat f). split; [exact Hf|].
      intros Hz. apply gt_int_zero in Hz. unfold is_positive in Hpos.
      rewrite Hz in Hpos. discriminate.
    - exists (PInt 0). split; reflexivity. }
  destruct Hdens as (density & Hdens & Hzero).
  exists (PFloat ratio), density, (PFloat nights). split; [|exact Hzero].
  rewrite engineer_features_dict.
  rewrite Hratio, (gt_int_defined _ Hnr). cbn [rbind].
  rewrite Hdens, Hnights, (table_get_defined _ _ _ Hhash). reflexivity.
Qed.

(** C6 (as amended): on every raw mapping whose arithmetic fields are
    numbers a double can hold (availability_365, minimum_nights and
    number_of_reviews always, reviews_per_month when number_of_reviews > 0)
    and whose neighbourhood is hashable, [engineer_features] returns a
    mapping; every absent raw field takes its documented default, a
    neighbourhood name absent from the frequency table is encoded as 0.01,
    and reviews_density is 0 whenever number_of_reviews == 0, whatever
    reviews_per_month holds. *)
Theorem engineer_features_total (d : gmap string pyval) :
  well_typed d = true ->
  exists fd,
    App.engineer_features (PDict d) = Ok fd
    /\ (forall key default, In (key, default) raw_defaults ->
         d !! key = None -> fd !! key = Some default)
    /\ (d !! "room_type" = None -> fd !! "room_type_Entire home/apt" = Some (PInt 1))
    /\ (d !! "neighbourhood_group" = None ->
         fd !! "neighbourhood_group_Manhattan" = Some (PInt 1))
    /\ (d !! "neighbourhood" = None ->
         fd !! "neighbourhood_encoded" = Some (PFloat (Fin 0.054)))
    /\ (forall name, d !! "neighbourhood" = Some (PStr name) ->
         App.neighbourhood_freq !! name = None ->
         fd !! "neighbourhood_encoded" = Some (PFloat (Fin 0.01)))
    /\ (is_zero (field d "number_of_reviews" (PInt 0)) = true ->
         fd !! "reviews_density" = Some (PInt 0)).
Proof.
  intros Hwt.
  destruct (engineer_features_defined d Hwt) as (ratio & density & nights & Hfd & Hzero).
  eexists. split; [exact Hfd|].
  split.
  { intros key default Hin Hkey. unfold raw_defaults in Hin. cbn [In] in Hin.
    repeat (destruct Hin as [[= <- <-]|Hin];
            [unfold assemble, field; rewrite Hkey; reflexivity|]).
    destruct Hin. }
  split. { intros Hk. unfold assemble, field. rewrite Hk. reflexivity. }
  split. { intros Hk. unfold assemble, field. rewrite Hk. reflexivity. }
  split. { intros Hk. unfold assemble, field. rewrite Hk. reflexivity. }
  split. { intros name Hk Hname. unfold assemble, field. rewrite Hk, Hname. reflexivity. }
  intros Hz. rewrite (Hzero Hz). reflexivity.
Qed.

(** C6, as stated, fails: a JSON null under [availability_365] is read
    as [None], and [None / 365] raises. *)
Lemma engineer_features_raises_on_null :
  App.engineer_features (PDict {[ "availability_365" := PNone ]}) = Raise TypeError.
Proof. reflexivity. Qed.

Lemma engineer_features_total_witness :
  exists fd,
    App.engineer_features
      (PDict (<["reviews_per_month" := PStr "n/a"]> {[ "number_of_reviews" := PInt 0 ]}))
    = Ok fd
    /\ fd !! "reviews_density" = Some (PInt 0)
    /\ fd !! "latitude" = Some (PFloat (Fin 40.7580)).
Proof.
  destruct (engineer_features_total
              (<["reviews_per_month" := PStr "n/a"]> {[ "number_of_reviews" := PInt 0 ]}))
    as (fd & Hfd & Hdefault & _ & _ & _ & _ & Hzero).
  - reflexivity.
  - exists fd. split; [exact Hfd|]. split.
    + apply Hzero. reflexivity.
    + apply Hdefault; [|reflexivity]. cbn. tauto.
Defined.

Lemma eq_str_true (v : pyval) (s : string) : Py.eq_str v s = true -> v = PStr s.
Proof.
  destruct v; try discriminate. cbn. intros H. apply String.eqb_eq in H. now subst.
Qed.

(** C7: in each one-hot group every indicator is 0 or 1, the indicator of
    a category is 1 exactly when the (possibly defaulted) categorical value
    equals that category, and the number of indicators set is 1 when the
    value is in the enumeration and 0 otherwise. *)
Theorem one_hot_exclusive (d fd : gmap string pyval) :
  App.engineer_features (PDict d) = Ok fd ->
  let room_type := field d "room_type" (PStr "Entire home/apt") in
  let neighbourhood_group := field d "neighbourhood_group" (PStr "Manhattan") in
  (forall c, In c room_types ->
     fd !! ("room_type_" ++ c) = Some (PInt (if Py.eq_str room_type c then 1 else 0)))
  /\ indicators_binary fd "room_type_" room_types = true
  /\ indicators_set fd "room_type_" room_types
     = (if in_enumeration room_type room_types then 1 else 0)%nat
  /\ (forall c, In c neighbourhood_groups ->
       fd !! ("neighbourhood_group_" ++ c)
       = Some (PInt (if Py.eq_str neighbourhood_group c then 1 else 0)))
  /\ indicators_binary fd "neighbourhood_group_" neighbourhood_groups = true
  /\ indicators_set fd "neighbourhood_group_" neighbourhood_groups
     = (if in_enumeration neighbourhood_group neighbourhood_groups then 1 else 0)%nat.
Proof.
  intros H room_type neighbourhood_group.
  apply engineer_features_inv in H.
  destruct H as (d' & ratio & density & nights & enc & [= <-] & -> & _).
  assert (Hrt : forall c, In c room_types ->
     assemble d ratio density nights enc !! ("room_type_" ++ c)
     = Some (PInt (if Py.eq_str room_type c then 1 else 0))).
  { intros c Hc. cbn [In room_types] in Hc.
    repeat (destruct Hc as [<-|Hc];
            [match goal with
             | |- _ !! (_ ++ ?n) = _ => transitivity (Some (App.indicator room_type n))
             end; [reflexivity|];
             unfold App.indicator; destruct (Py.eq_str room_type _); reflexivity|]).
    destruct Hc. }
  assert (Hng : forall c, In c neighbourhood_groups ->
     assemble d ratio density nights enc !! ("neighbourhood_group_" ++ c)
     = Some (PInt (if Py.eq_str neighbourhood_group c then 1 else 0))).
  { intros c Hc. cbn [In neighbourhood_groups] in Hc.
    repeat (destruct Hc as [<-|Hc];
            [match goal with
             | |- _ !! (_ ++ ?n) = _ =>
                 transitivity (Some (App.indicator neighbourhood_group n))
             end; [reflexivity|];
             unfold App.indicator; destruct (Py.eq_str neighbourhood_group _);
             reflexivity|]).
    destruct Hc. }
  split; [exact Hrt|]. split; [|split; [|split; [exact Hng|split]]].
  - unfold indicators_binary, room_types. cbn [forallb].
    rewrite !Hrt by (cbn; tauto).
    repeat destruct (Py.eq_str room_type _); reflexivity.
  - unfold indicators_set, in_enumeration, room_types. cbn [List.filter existsb].
    rewrite !Hrt by (cbn; tauto).
    destruct (Py.eq_str room_type "Entire home/apt") eqn:E1;
    destruct (Py.eq_str room_type "Private room") eqn:E2;
    destruct (Py.eq_str room_type "Shared room") eqn:E3;
    try reflexivity;
    repeat match goal with
           | E : Py.eq_str _ _ = true |- _ => apply eq_str_true in E
           end; congruence.
  - unfold indicators_binary, neighbourhood_groups. cbn [forallb].
    rewrite !Hng by (cbn; tauto).
    repeat destruct (Py.eq_str neighbourhood_group _); reflexivity.
  - unfold indicators_set, in_enumeration, neighbourhood_groups.
    cbn [List.filter existsb].
    rewrite !Hng by (cbn; tauto).
    destruct (Py.eq_str neighbourhood_group "Bronx") eqn:E1;
    destruct (Py.eq_str neighbourhood_group "Brooklyn") eqn:E2;
    destruct (Py.eq_str neighbourhood_group "Manhattan") eqn:E3;
    destruct (Py.eq_str neighbourhood_group "Queens") eqn:E4;
    destruct (Py.eq_str neighbourhood_group "Staten Island") eqn:E5;
    try reflexivity;
    repeat match goal with
           | E : Py.eq_str _ _ = true |- _ => apply eq_str_true in E
           end; congruence.
Qed.

Lemma one_hot_exclusive_witness :
  indicators_set sample_features "room_type_" room_types = 1%nat
  /\ sample_features !! "room_type_Private room" = Some (PInt 1)
  /\ indicators_set sample_features "neighbourhood_group_" neighbourhood_groups = 1%nat.
Proof.
  destruct (one_hot_exclusive sample_raw sample_features)
    as (Hrt & _ & Hset & _ & _ & Hng).
  - reflexivity.
  - split; [exact Hset|]. split; [|exact Hng].
    apply (Hrt "Private room"). cbn. tauto.
Defined.

(** ** The vector aligner *)

Section Aligner.

Variable np_convert_object : pyval -> result pyfloat.

Lemma np_store_in_range (v : pyval) :
  in_range_number v = true -> App.np_store np_convert_object v = Ok (number_value v).
Proof.
  destruct v as [|b|z|f|s|l|d]; try discriminate; cbn; try reflexivity.
  apply int_to_float_in_range.
Qed.

Lemma fill_features_spec (fd : gmap string pyval) (cols : list string) :
  (forall col v, col ∈ cols -> fd !! col = Some v -> in_range_number v = true) ->
  forall (k : nat) (arr : list pyfloat),
    k + length cols <= length arr ->
    exists arr',
      App.fill_features np_convert_object (zip (seq k (length cols)) cols) fd arr = Ok arr'
      /\ length arr' = length arr
      /\ (forall i, i < k -> arr' !! i = arr !! i)
      /\ (forall j col, cols !! j = Some col ->
            arr' !! (k + j) = match fd !! col with
                              | Some v => Some (number_value v)
                              | None => arr !! (k + j)
                              end).
Proof.
  induction cols as [|c cols IH]; intros Hnum k arr Hlen.
  - exists arr. cbn. repeat split; auto. intros j col Hj. discriminate.
  - cbn [length seq zip App.fill_features zip_with].
    assert (Hnum' : forall col v, col ∈ cols -> fd !! col = Some v ->
                                  in_range_number v = true).
    { intros col v Hin. apply Hnum. now right. }
    cbn [length] in Hlen.
    destruct (fd !! c) as [v|] eqn:Hc.
    + rewrite (np_store_in_range v) by (apply (Hnum c); [left|assumption]).
      cbn [rbind].
      destruct (IH Hnum' (S k) (<[k := number_value v]> arr)) as (arr' & Hfill & Hl & Hlow & Hcols).
      { rewrite length_insert. lia. }
      exists arr'. split; [exact Hfill|]. rewrite length_insert in Hl.
      split; [exact Hl|]. split.
      * intros i Hi. rewrite Hlow by lia. apply list_lookup_insert_ne. lia.
      * intros [|j] col Hj; cbn in Hj.
        -- injection Hj as <-. rewrite Hc, Nat.add_0_r, Hlow by lia.
           apply list_lookup_insert_eq. lia.
        -- replace (k + S j) with (S k + j) by lia.
           rewrite (Hcols j col Hj).
           destruct (fd !! col); [reflexivity|].
           apply list_lookup_insert_ne. lia.
    + destruct (IH Hnum' (S k) arr) as (arr' & Hfill & Hl & Hlow & Hcols); [lia|].
      exists arr'. split; [exact Hfill|]. split; [exact Hl|]. split.
      * intros i Hi. apply Hlow. lia.
      * intros [|j] col Hj; cbn in Hj.
        -- injection Hj as <-. rewrite Hc, Nat.add_0_r. apply Hlow. lia.
        -- replace (k + S j) with (S k + j) by lia. apply (Hcols j col Hj).
Qed.

(** An exception of the loop is the exception of one store. *)
Lemma fill_features_raise_origin (fd : gmap string pyval) (cols : list (nat * string))
    (arr : list pyfloat) (e : exn) :
  App.fill_features np_convert_object cols fd arr = Raise e ->
  exists v, App.np_store np_convert_object v = Raise e.
Proof.
  revert arr. induction cols as [|[i col] cols IH]; intros arr; cbn [App.fill_features].
  - discriminate.
  - destruct (fd !! col) as [v|]; [|apply IH].
    destruct (App.np_store np_convert_object v) as [x|e'] eqn:Hstore; cbn [rbind].
    + apply IH.
    + intros [= <-]. exists v. exact Hstore.
Qed.

(** C2 (as amended): [prepare_features_array] raises the schema-unavailable
    error without a loaded schema and, numpy's conversion having messages
    of its own, only then; with a loaded schema it returns a vector of
    exactly the schema's length holding, at every position, the named
    feature's number or 0 when the name is absent, provided every
    schema-named value present is a float, a bool or an int a double can
    hold. *)
Theorem prepare_features_array_aligned (features_dict : gmap string pyval) :
  App.prepare_features_array np_convert_object None features_dict
  = Raise (ValueError "Feature columns not loaded")
  /\ (forall schema : option (list string),
        (forall v, np_convert_object v <> Raise (ValueError "Feature columns not loaded")) ->
        (App.prepare_features_array np_convert_object schema features_dict
         = Raise (ValueError "Feature columns not loaded")
         <-> schema = None))
  /\ forall feature_columns : list string,
       (forall col v, col ∈ feature_columns -> features_dict !! col = Some v ->
                      in_range_number v = true) ->
       exists feature_array,
         App.prepare_features_array np_convert_object (Some feature_columns) features_dict
         = Ok feature_array
         /\ length feature_array = length feature_columns
         /\ forall i col, feature_columns !! i = Some col ->
              feature_array !! i = Some (aligned_value features_dict col).
Proof.
  split; [reflexivity|]. split.
  { intros schema Hnp. split; [|intros ->; reflexivity].
    destruct schema as [cols|]; [|reflexivity].
    unfold App.prepare_features_array. intros Hfill.
    apply fill_features_raise_origin in Hfill as [v Hstore].
    destruct v as [|b|z|f|s|l|d]; cbn in Hstore;
      try (now apply Hnp in Hstore); try discriminate Hstore.
    unfold Py.int_to_float in Hstore.
    destruct (Z.abs z <? Py.overflow_bound)%Z; discriminate Hstore. }
  intros cols Hnum. unfold App.prepare_features_array, App.enumerate.
  destruct (fill_features_spec features_dict cols Hnum 0 (replicate (length cols) (Fin 0)))
    as (arr' & Hfill & Hl & _ & Hcols).
  { rewrite length_replicate. lia. }
  exists arr'. split; [exact Hfill|].
  rewrite length_replicate in Hl. split; [exact Hl|].
  intros i col Hi. specialize (Hcols i col Hi). cbn [Nat.add] in Hcols.
  rewrite Hcols. unfold aligned_value.
  destruct (features_dict !! col); [reflexivity|].
  apply lookup_replicate_2. eapply lookup_lt_Some. exact Hi.
Qed.

End Aligner.

(** C2, as stated, fails: an integer feature too large for a double makes
    the aligner raise although a schema is loaded. *)
Lemma prepare_features_array_overflow :
  let raw : gmap string pyval := {[ "latitude" := PInt (2 ^ 1024) ]} in
  let fd := assemble raw (PFloat (Fin 1)) (PInt 0) (PFloat (Fin (1 # 365)))
              (PFloat (Fin 0.054)) in
  App.engineer_features (PDict raw) = Ok fd
  /\ App.prepare_features_array numpy_rejects (Some ["latitude"]) fd = Raise OverflowError.
Proof.
  cbv zeta. split; reflexivity.
Qed.

Lemma prepare_features_array_aligned_witness :
  (App.prepare_features_array numpy_rejects (Some ["latitude"; "unknown"; "flag"])
     (<["flag" := PBool true]> {[ "latitude" := PInt 3 ]})
   = Raise (ValueError "Feature columns not loaded")
   <-> Some ["latitude"; "unknown"; "flag"] = None)
  /\ exists feature_array,
       App.prepare_features_array numpy_rejects (Some ["latitude"; "unknown"; "flag"])
         (<["flag" := PBool true]> {[ "latitude" := PInt 3 ]})
       = Ok feature_array
       /\ length feature_array = 3%nat
       /\ feature_array !! 1%nat = Some (Fin 0).
Proof.
  destruct (prepare_features_array_aligned numpy_rejects
              (<["flag" := PBool true]> {[ "latitude" := PInt 3 ]}))
    as (_ & Honly & Hloaded).
  split.
  { apply Honly. intros v. unfold numpy_rejects. discriminate. }
  destruct (Hloaded ["latitude"; "unknown"; "flag"]) as (arr & Harr & Hlen & Hpos).
  { intros col v Hcol.
    repeat (apply elem_of_cons in Hcol as [->|Hcol];
            [intros [= <-] || intros [=]; reflexivity|]).
    inversion Hcol. }
  exists arr. split; [exact Harr|]. split; [exact Hlen|].
  apply (Hpos 1%nat "unknown"). reflexivity.
Defined.

(** ** The prediction handlers *)

Section Handlers.

Variable np_convert_object : pyval -> result pyfloat.
Variable py_str_other : pyval -> string.

Lemma predict_price_run (g : App.globals) (w : App.world) :
  App.serve (App.predict_price np_convert_object py_str_other g w) =
  match App.price_model g with
  | None => (Some (error_response (App.Message "Price model not loaded")), [])
  | Some m =>
      match inference np_convert_object m g w with
      | Raise e => (Some (error_response (App.StrOf e)), [])
      | Ok (features_dict, raw) =>
          let price := Py.max_int_float 10 raw in
          match App.metadata_version (App.metadata g) "price_model" with
          | Raise e => (Some (error_response (App.StrOf e)), [])
          | Ok version =>
              let record := price_record features_dict price (App.random_uniform w) version in
              match App.version_tag py_str_other (App.metadata g) "price_model"
                      "RandomForestRegressor" with
              | Raise e => (Some (error_response (App.StrOf e)), [record])
              | Ok tag =>
                  (Some (ok_response
                           (price_result (prediction_id (App.supabase_insert w record))
                              price (App.random_uniform w) tag)),
                   [record])
              end
          end
      end
  end.
Proof.
  unfold App.serve, App.predict_price, inference.
  destruct (App.price_model g) as [m|]; [|reflexivity].
  unfold App.try_except, App.bind, App.lift, App.ret, App.store_prediction, prediction_id.
  destruct (App.request_json w) as [raw|]; [|reflexivity]. cbn [rbind].
  destruct (App.engineer_features raw) as [fd|]; [|reflexivity]. cbn [rbind].
  destruct (App.prepare_features_array _ _ _) as [vec|]; [|reflexivity]. cbn [rbind].
  destruct (m vec) as [x|]; [|reflexivity]. cbn [rbind].
  destruct (App.metadata_version _ _) as [version|]; [|reflexivity].
  fold (price_record fd (Py.max_int_float 10 x) (App.random_uniform w) version).
  generalize (price_record fd (Py.max_int_float 10 x) (App.random_uniform w) version) as rec.
  intros rec.
  destruct (App.supabase_insert w rec) as [data|]; cbn [rbind].
  - destruct (Py.truthy data).
    + destruct (Py.getitem0 data) as [row|]; cbn [rbind].
      * destruct (Py.getitem row "id");
          destruct (App.version_tag _ _ _ _); reflexivity.
      * destruct (App.version_tag _ _ _ _); reflexivity.
    + destruct (App.version_tag _ _ _ _); reflexivity.
  - destruct (App.version_tag _ _ _ _); reflexivity.
Qed.

Lemma predict_demand_run (g : App.globals) (w : App.world) :
  App.serve (App.predict_demand np_convert_object py_str_other g w) =
  match App.demand_model g with
  | None => (Some (error_response (App.Message "Demand model not loaded")), [])
  | Some m =>
      match inference np_convert_object m g w with
      | Raise e => (Some (error_response (App.StrOf e)), [])
      | Ok (features_dict, raw) =>
          let probability := Py.clip raw (Fin 0) (Fin 1) in
          match App.metadata_version (App.metadata g) "demand_model" with
          | Raise e => (Some (error_response (App.StrOf e)), [])
          | Ok version =>
              let record := demand_record features_dict probability version in
              match App.version_tag py_str_other (App.metadata g) "demand_model"
                      "LightGBMClassifier" with
              | Raise e => (Some (error_response (App.StrOf e)), [record])
              | Ok tag =>
                  (Some (ok_response
                           (demand_result (prediction_id (App.supabase_insert w record))
                              probability tag)),
                   [record])
              end
          end
      end
  end.
Proof.
  unfold App.serve, App.predict_demand, inference.
  destruct (App.demand_model g) as [m|]; [|reflexivity].
  unfold App.try_except, App.bind, App.lift, App.ret, App.store_prediction, prediction_id.
  destruct (App.request_json w) as [raw|]; [|reflexivity]. cbn [rbind].
  destruct (App.engineer_features raw) as [fd|]; [|reflexivity]. cbn [rbind].
  destruct (App.prepare_features_array _ _ _) as [vec|]; [|reflexivity]. cbn [rbind].
  destruct (m vec) as [x|]; [|reflexivity]. cbn [rbind].
  destruct (App.metadata_version _ _) as [version|]; [|reflexivity].
  fold (demand_label (Py.clip x (Fin 0) (Fin 1))).
  fold (demand_record fd (Py.clip x (Fin 0) (Fin 1)) version).
  generalize (demand_record fd (Py.clip x (Fin 0) (Fin 1)) version) as rec.
  intros rec.
  destruct (App.supabase_insert w rec) as [data|]; cbn [rbind].
  - destruct (Py.truthy data).
    + destruct (Py.getitem0 data) as [row|]; cbn [rbind].
      * destruct (Py.getitem row "id");
          destruct (App.version_tag _ _ _ _); reflexivity.
      * destruct (App.version_tag _ _ _ _); reflexivity.
    + destruct (App.version_tag _ _ _ _); reflexivity.
  - destruct (App.version_tag _ _ _ _); reflexivity.
Qed.

Lemma version_tag_defined (metadata : pyval) (kind name : string) (version : pyval) :
  App.metadata_version metadata kind = Ok version ->
  exists tag, App.version_tag py_str_other metadata kind name = Ok (PStr tag).
Proof.
  unfold App.metadata_version, App.version_tag.
  destruct (Py.truthy metadata); [|eauto].
  destruct (Py.getitem metadata kind) as [entry|]; cbn [rbind]; [|discriminate].
  intros ->. cbn [rbind]. eauto.
Qed.

(** A response with status 200 comes from a loaded model, a successful
    inference and a readable version. *)
Lemma predict_price_ok_inv (g : App.globals) (w : App.world) (r : App.response)
    (log : App.sink_log) :
  App.serve (App.predict_price np_convert_object py_str_other g w) = (Some r, log) ->
  App.status r = 200%Z ->
  exists m features_dict raw version tag,
    App.price_model g = Some m
    /\ inference np_convert_object m g w = Ok (features_dict, raw)
    /\ App.metadata_version (App.metadata g) "price_model" = Ok version
    /\ App.version_tag py_str_other (App.metadata g) "price_model" "RandomForestRegressor"
       = Ok tag
    /\ log = [price_record features_dict (Py.max_int_float 10 raw) (App.random_uniform w)
                version]
    /\ r = ok_response
             (price_result (prediction_id (App.supabase_insert w
                (price_record features_dict (Py.max_int_float 10 raw)
                   (App.random_uniform w) version)))
                (Py.max_int_float 10 raw) (App.random_uniform w) tag).
Proof.
  rewrite predict_price_run.
  destruct (App.price_model g) as [m|] eqn:Hm; [|intros [= <- <-]; discriminate].
  destruct (inference np_convert_object m g w) as [[fd raw]|] eqn:Hi; [|intros [= <- <-]; discriminate].
  cbv zeta.
  destruct (App.metadata_version _ _) as [version|] eqn:Hv; [|intros [= <- <-]; discriminate].
  destruct (App.version_tag _ _ _ _) as [tag|] eqn:Ht; [|intros [= <- <-]; discriminate].
  intros [= <- <-] _. exists m, fd, raw, version, tag. repeat split; first [assumption|reflexivity].
Qed.

Lemma predict_demand_ok_inv (g : App.globals) (w : App.world) (r : App.response)
    (log : App.sink_log) :
  App.serve (App.predict_demand np_convert_object py_str_other g w) = (Some r, log) ->
  App.status r = 200%Z ->
  exists m features_dict raw version tag,
    App.demand_model g = Some m
    /\ inference np_convert_object m g w = Ok (features_dict, raw)
    /\ App.metadata_version (App.metadata g) "demand_model" = Ok version
    /\ App.version_tag py_str_other (App.metadata g) "demand_model" "LightGBMClassifier"
       = Ok tag
    /\ log = [demand_record features_dict (Py.clip raw (Fin 0) (Fin 1)) version]
    /\ r = ok_response
             (demand_result (prediction_id (App.supabase_insert w
                (demand_record features_dict (Py.clip raw (Fin 0) (Fin 1)) version)))
                (Py.clip raw (Fin 0) (Fin 1)) tag).
Proof.
  rewrite predict_demand_run.
  destruct (App.demand_model g) as [m|] eqn:Hm; [|intros [= <- <-]; discriminate].
  destruct (inference np_convert_object m g w) as [[fd raw]|] eqn:Hi; [|intros [= <- <-]; discriminate].
  cbv zeta.
  destruct (App.metadata_version _ _) as [version|] eqn:Hv; [|intros [= <- <-]; discriminate].
  destruct (App.version_tag _ _ _ _) as [tag|] eqn:Ht; [|intros [= <- <-]; discriminate].
  intros [= <- <-] _. exists m, fd, raw, version, tag. repeat split; first [assumption|reflexivity].
Qed.

(** The clip of a finite score, by the position of the score. *)
Lemma clip_finite (q : Q) :
  ((q < 0)%Q -> Py.clip (Fin q) (Fin 0) (Fin 1) = Fin 0)
  /\ ((1 < q)%Q -> Py.clip (Fin q) (Fin 0) (Fin 1) = Fin 1)
  /\ ((0 <= q)%Q -> (q <= 1)%Q -> Py.clip (Fin q) (Fin 0) (Fin 1) = Fin q).
Proof.
  unfold Py.clip, Py.float_gtb, Py.float_ltb, Py.Qlt_bool.
  destruct (Qle_bool 0 q) eqn:Hlo; cbn [negb].
  - apply Qle_bool_iff in Hlo.
    split; [intros Hneg; exfalso; exact (Qlt_not_le _ _ Hneg Hlo)|].
    destruct (Qle_bool q 1) eqn:Hhi; cbn [negb].
    + apply Qle_bool_iff in Hhi.
      split; [intros Hbig; exfalso; exact (Qlt_not_le _ _ Hbig Hhi)|reflexivity].
    + split; [reflexivity|]. intros _ Hle. apply Qle_bool_iff in Hle. congruence.
  - split; [reflexivity|]. split.
    + intros Hbig. exfalso.
      assert (Hle : (0 <= q)%Q)
        by (apply Qlt_le_weak, (Qlt_trans 0 1 q); [reflexivity|exact Hbig]).
      apply Qle_bool_iff in Hle. congruence.
    + intros Hle. apply Qle_bool_iff in Hle. congruence.
Qed.

(** The label of a finite probability, by its position against 0.5. *)
Lemma demand_label_finite (p : Q) :
  ((0.5 < p)%Q -> demand_label (Fin p) = PStr "high-demand")
  /\ ((p <= 0.5)%Q -> demand_label (Fin p) = PStr "low-demand").
Proof.
  unfold demand_label, Py.float_gtb, Py.float_ltb, Py.Qlt_bool.
  destruct (Qle_bool p 0.5) eqn:Hle; cbn [negb].
  - apply Qle_bool_iff in Hle.
    split; [intros Hgt; exfalso; exact (Qlt_not_le _ _ Hgt Hle)|reflexivity].
  - split; [reflexivity|]. intros Hle'. apply Qle_bool_iff in Hle'. congruence.
Qed.

(** C3 (as amended): when [predict_demand] answers 200, the demand model is
    loaded and produced a score.  A score below 0 is reported as
    probability 0, a score above 1 as probability 1, a score within [0, 1]
    as itself, and a NaN score as NaN.  The label is "high-demand" when the
    reported probability is strictly greater than 0.5 and "low-demand"
    otherwise: a probability of exactly 0.5, and a NaN score, are
    "low-demand". *)
Theorem predict_demand_label (g : App.globals) (w : App.world) (r : App.response)
    (log : App.sink_log) :
  App.serve (App.predict_demand np_convert_object py_str_other g w) = (Some r, log) ->
  App.status r = 200%Z ->
  exists m features_dict score fields,
    App.demand_model g = Some m
    /\ inference np_convert_object m g w = Ok (features_dict, score)
    /\ App.body r = App.JsonResult fields
    /\ match score with
       | Fin q =>
           ((q < 0)%Q ->
              fields !! "probability" = Some (PFloat (Fin 0))
              /\ fields !! "predicted_class" = Some (PStr "low-demand"))
           /\ ((1 < q)%Q ->
                 fields !! "probability" = Some (PFloat (Fin 1))
                 /\ fields !! "predicted_class" = Some (PStr "high-demand"))
           /\ ((0 <= q)%Q -> (q <= 1)%Q ->
                 fields !! "probability" = Some (PFloat (Fin q))
                 /\ ((0.5 < q)%Q ->
                       fields !! "predicted_class" = Some (PStr "high-demand"))
                 /\ ((q <= 0.5)%Q ->
                       fields !! "predicted_class" = Some (PStr "low-demand")))
       | Inf negative =>
           fields !! "probability" = Some (PFloat (Fin (if negative then 0 else 1)))
           /\ fields !! "predicted_class"
              = Some (PStr (if negative then "low-demand" else "high-demand"))
       | NaN =>
           fields !! "probability" = Some (PFloat NaN)
           /\ fields !! "predicted_class" = Some (PStr "low-demand")
       end.
Proof.
  intros Hrun Hok.
  destruct (predict_demand_ok_inv g w r log Hrun Hok)
    as (m & fd & score & version & tag & Hm & Hi & _ & _ & _ & ->).
  exists m, fd, score. eexists. split; [exact Hm|]. split; [exact Hi|].
  split; [reflexivity|].
  assert (Hprob : forall id p, demand_result id p tag !! "probability" = Some (PFloat p))
    by reflexivity.
  assert (Hclass : forall id p,
    demand_result id p tag !! "predicted_class" = Some (demand_label p))
    by reflexivity.
  destruct score as [q|[]|]; [| split; reflexivity | split; reflexivity | split; reflexivity].
  destruct (clip_finite q) as (Hbelow & Habove & Hwithin).
  split; [|split].
  - intros Hq. rewrite Hprob, Hclass, (Hbelow Hq). split; reflexivity.
  - intros Hq. rewrite Hprob, Hclass, (Habove Hq). split; reflexivity.
  - intros Hlo Hhi. rewrite Hprob, Hclass, (Hwithin Hlo Hhi). split; [reflexivity|].
    split; intros Hq; f_equal; now apply demand_label_finite.
Qed.

Lemma max_int_float_floor (n : Z) (x : pyfloat) :
  ge_int (Py.max_int_float n x) n = true.
Proof.
  unfold Py.max_int_float.
  destruct (Py.float_gtb x (Fin (inject_Z n))) eqn:Hgt; cbn.
  - destruct x as [q|[]|]; try discriminate; [|reflexivity].
    cbn in Hgt. unfold Py.Qlt_bool in Hgt.
    apply Qle_bool_iff. apply Qlt_le_weak. apply Qnot_le_lt.
    intros Hle. apply Qle_bool_iff in Hle. rewrite Hle in Hgt. discriminate.
  - apply Z.leb_refl.
Qed.

(** C4: when [predict_price] answers 200, the price in the response and
    the price in the record handed to the sink are the same value, and it
    is at least 10. *)
Theorem predict_price_floor (g : App.globals) (w : App.world) (r : App.response)
    (log : App.sink_log) :
  App.serve (App.predict_price np_convert_object py_str_other g w) = (Some r, log) ->
  App.status r = 200%Z ->
  exists fields record price,
    App.body r = App.JsonResult fields
    /\ log = [record]
    /\ fields !! "predicted_price" = Some price
    /\ record !! "predicted_value" = Some price
    /\ ge_int price 10 = true.
Proof.
  intros Hrun Hok.
  destruct (predict_price_ok_inv g w r log Hrun Hok)
    as (m & fd & raw & version & tag & _ & _ & _ & _ & -> & ->).
  do 2 eexists. exists (Py.max_int_float 10 raw).
  split; [reflexivity|]. split; [reflexivity|].
  split; [reflexivity|]. split; [reflexivity|].
  apply max_int_float_floor.
Qed.

Lemma price_result_null (id price : pyval) (confidence : pyfloat) (tag : pyval) :
  <["prediction_id" := PNone]> (price_result id price confidence tag)
  = price_result PNone price confidence tag.
Proof.
  unfold price_result.
  rewrite (insert_insert_ne _ "prediction_id" "model_version") by discriminate.
  rewrite (insert_insert_ne _ "prediction_id" "confidence") by discriminate.
  rewrite (insert_insert_ne _ "prediction_id" "predicted_price") by discriminate.
  now rewrite insert_insert_eq.
Qed.

Lemma demand_result_null (id : pyval) (probability : pyfloat) (tag : pyval) :
  <["prediction_id" := PNone]> (demand_result id probability tag)
  = demand_result PNone probability tag.
Proof.
  unfold demand_result.
  rewrite (insert_insert_ne _ "prediction_id" "model_version") by discriminate.
  rewrite (insert_insert_ne _ "prediction_id" "probability") by discriminate.
  rewrite (insert_insert_ne _ "prediction_id" "predicted_class") by discriminate.
  now rewrite insert_insert_eq.
Qed.

(** C5: if a prediction answers 200, the same request against a sink
    whose insert raises also answers 200, with the same fields except that
    prediction_id is null, and hands the same record to the sink. *)
Theorem persistence_failure_swallowed (g : App.globals) (w : App.world) (e : exn) :
  (forall r log,
     App.serve (App.predict_price np_convert_object py_str_other g w) = (Some r, log) ->
     App.status r = 200%Z ->
     exists fields,
       App.body r = App.JsonResult fields
       /\ App.serve (App.predict_price np_convert_object py_str_other g
                       (with_failing_sink w e))
          = (Some {| App.body := App.JsonResult (<["prediction_id" := PNone]> fields);
                     App.status := 200 |}, log))
  /\ (forall r log,
        App.serve (App.predict_demand np_convert_object py_str_other g w) = (Some r, log) ->
        App.status r = 200%Z ->
        exists fields,
          App.body r = App.JsonResult fields
          /\ App.serve (App.predict_demand np_convert_object py_str_other g
                          (with_failing_sink w e))
             = (Some {| App.body := App.JsonResult (<["prediction_id" := PNone]> fields);
                        App.status := 200 |}, log)).
Proof.
  split; intros r log Hrun Hok.
  - destruct (predict_price_ok_inv g w r log Hrun Hok)
      as (m & fd & raw & version & tag & Hm & Hi & Hv & Ht & -> & ->).
    eexists. split; [reflexivity|].
    rewrite predict_price_run, Hm.
    change (inference np_convert_object m g (with_failing_sink w e)) with (inference np_convert_object m g w).
    rewrite Hi. cbv zeta. rewrite Hv, Ht, price_result_null. reflexivity.
  - destruct (predict_demand_ok_inv g w r log Hrun Hok)
      as (m & fd & raw & version & tag & Hm & Hi & Hv & Ht & -> & ->).
    eexists. split; [reflexivity|].
    rewrite predict_demand_run, Hm.
    change (inference np_convert_object m g (with_failing_sink w e)) with (inference np_convert_object m g w).
    rewrite Hi. cbv zeta. rewrite Hv, Ht, demand_result_null. reflexivity.
Qed.

Lemma inference_not_object (m : App.model) (g : App.globals) (w : App.world) :
  (forall d, App.request_json w <> Ok (PDict d)) ->
  exists e, inference np_convert_object m g w = Raise e.
Proof.
  intros Hbody. unfold inference.
  destruct (App.request_json w) as [raw|e]; cbn [rbind]; [|eauto].
  destruct raw as [| | | | | |d]; try (exists AttributeError; reflexivity).
  now destruct (Hbody d).
Qed.

(** C8 (as amended): when the request body is not an object (parsing it
    raised, or it parsed to another JSON value), a prediction endpoint whose
    model is loaded answers with a structured error of status 500, the
    status also used for a missing model. *)
Theorem malformed_input_is_server_error (g : App.globals) (w : App.world) :
  (forall d, App.request_json w <> Ok (PDict d)) ->
  (forall m, App.price_model g = Some m ->
     exists e, App.serve (App.predict_price np_convert_object py_str_other g w)
               = (Some {| App.body := App.JsonError (App.StrOf e); App.status := 500 |}, []))
  /\ (forall m, App.demand_model g = Some m ->
       exists e, App.serve (App.predict_demand np_convert_object py_str_other g w)
                 = (Some {| App.body := App.JsonError (App.StrOf e); App.status := 500 |},
                    [])).
Proof.
  intros Hbody. split; intros m Hm.
  - destruct (inference_not_object m g w Hbody) as [e He].
    exists e. rewrite predict_price_run, Hm, He. reflexivity.
  - destruct (inference_not_object m g w Hbody) as [e He].
    exists e. rewrite predict_demand_run, Hm, He. reflexivity.
Qed.

(** C9: two runs on the same request body with the same globals give the
    same response apart from prediction_id and, for prices, the random
    confidence; the records handed to the sink are equal apart from the
    price record's confidence_score. *)
Theorem predictions_repeatable (g : App.globals) (input : result pyval)
    (u1 u2 : pyfloat) (db1 db2 : gmap string pyval -> result pyval) :
  let w1 := {| App.request_json := input; App.random_uniform := u1;
               App.supabase_insert := db1 |} in
  let w2 := {| App.request_json := input; App.random_uniform := u2;
               App.supabase_insert := db2 |} in
  let price1 := App.serve (App.predict_price np_convert_object py_str_other g w1) in
  let price2 := App.serve (App.predict_price np_convert_object py_str_other g w2) in
  let demand1 := App.serve (App.predict_demand np_convert_object py_str_other g w1) in
  let demand2 := App.serve (App.predict_demand np_convert_object py_str_other g w2) in
  (forget ["prediction_id"; "confidence"] <$> price1.1)
  = (forget ["prediction_id"; "confidence"] <$> price2.1)
  /\ (delete "confidence_score" <$> price1.2) = (delete "confidence_score" <$> price2.2)
  /\ (forget ["prediction_id"] <$> demand1.1) = (forget ["prediction_id"] <$> demand2.1)
  /\ demand1.2 = demand2.2.
Proof.
  intros w1 w2 price1 price2 demand1 demand2.
  subst price1 price2 demand1 demand2.
  rewrite !predict_price_run, !predict_demand_run.
  assert (Hinf : forall m, inference np_convert_object m g w2 = inference np_convert_object m g w1) by reflexivity.
  split; [|split; [|split]].
  - destruct (App.price_model g) as [m|]; [|reflexivity].
    rewrite Hinf. destruct (inference np_convert_object m g w1) as [[fd raw]|]; [|reflexivity].
    cbv zeta. destruct (App.metadata_version _ _); [|reflexivity].
    destruct (App.version_tag _ _ _ _); reflexivity.
  - destruct (App.price_model g) as [m|]; [|reflexivity].
    rewrite Hinf. destruct (inference np_convert_object m g w1) as [[fd raw]|]; [|reflexivity].
    cbv zeta. destruct (App.metadata_version _ _); [|reflexivity].
    destruct (App.version_tag _ _ _ _); reflexivity.
  - destruct (App.demand_model g) as [m|]; [|reflexivity].
    rewrite Hinf. destruct (inference np_convert_object m g w1) as [[fd raw]|]; [|reflexivity].
    cbv zeta. destruct (App.metadata_version _ _); [|reflexivity].
    destruct (App.version_tag _ _ _ _); reflexivity.
  - destruct (App.demand_model g) as [m|]; [|reflexivity].
    rewrite Hinf. destruct (inference np_convert_object m g w1) as [[fd raw]|]; [|reflexivity].
    cbv zeta. destruct (App.metadata_version _ _); [|reflexivity].
    destruct (App.version_tag _ _ _ _); reflexivity.
Qed.

End Handlers.

(** C3, as stated, fails: a NaN score is answered with status 200 and is
    reported as NaN, which is no number of [0, 1]. *)
Lemma predict_demand_nan_score :
  App.serve (App.predict_demand numpy_rejects str_unknown (scoring_globals NaN)
               sample_world)
  = (Some (ok_response (demand_result (PInt 7) NaN (PStr "LightGBMClassifier-v1.0"))),
     [demand_record sample_features NaN (PStr "1.0")])
  /\ demand_result (PInt 7) NaN (PStr "LightGBMClassifier-v1.0") !! "probability"
     = Some (PFloat NaN)
  /\ demand_result (PInt 7) NaN (PStr "LightGBMClassifier-v1.0") !! "predicted_class"
     = Some (PStr "low-demand").
Proof.
  split; [reflexivity|]. split; reflexivity.
Qed.

Lemma predict_demand_label_witness :
  exists fields : gmap string pyval,
    App.serve (App.predict_demand numpy_rejects str_unknown (scoring_globals (Fin 0.51))
                 sample_world)
    = (Some (ok_response fields), [demand_record sample_features (Fin 0.51) (PStr "1.0")])
    /\ fields !! "probability" = Some (PFloat (Fin 0.51))
    /\ fields !! "predicted_class" = Some (PStr "high-demand").
Proof.
  destruct (predict_demand_label numpy_rejects str_unknown (scoring_globals (Fin 0.51))
              sample_world
              (ok_response
                 (demand_result (PInt 7) (Fin 0.51) (PStr "LightGBMClassifier-v1.0")))
              [demand_record sample_features (Fin 0.51) (PStr "1.0")])
    as (m & fd & score & fields & Hm & Hi & Hbody & Hcases).
  - reflexivity.
  - reflexivity.
  - injection Hm as <-.
    change (Ok (sample_features, Fin 0.51) = Ok (fd, score)) in Hi.
    injection Hi as <- <-.
    injection Hbody as <-.
    destruct Hcases as (_ & _ & Hwithin).
    destruct Hwithin as (Hp & Hhigh & _).
    + unfold Qle. simpl. lia.
    + unfold Qle. simpl. lia.
    + eexists. split; [reflexivity|]. split; [exact Hp|].
      apply Hhigh. unfold Qlt. simpl. lia.
Defined.

Lemma predict_price_floor_witness :
  exists (fields record : gmap string pyval) (price : pyval),
    fields !! "predicted_price" = Some price
    /\ record !! "predicted_value" = Some price
    /\ ge_int price 10 = true.
Proof.
  destruct (predict_price_floor numpy_rejects str_unknown sample_globals sample_world
              (ok_response
                 (price_result (PInt 7) (PInt 10) (Fin 0.8)
                    (PStr "RandomForestRegressor-v1.0")))
              [price_record sample_features (PInt 10) (Fin 0.8) (PStr "1.0")])
    as (fields & record & price & _ & _ & Hf & Hr & Hge).
  - reflexivity.
  - reflexivity.
  - exists fields, record, price. auto.
Defined.

Lemma persistence_failure_swallowed_witness :
  exists fields,
    App.serve (App.predict_price numpy_rejects str_unknown sample_globals
                 (with_failing_sink sample_world (ExternalError "backend unavailable")))
    = (Some {| App.body := App.JsonResult fields; App.status := 200 |},
       [price_record sample_features (PInt 10) (Fin 0.8) (PStr "1.0")])
    /\ fields !! "prediction_id" = Some PNone.
Proof.
  destruct (persistence_failure_swallowed numpy_rejects str_unknown sample_globals
              sample_world (ExternalError "backend unavailable")) as [Hprice _].
  destruct (Hprice
              (ok_response
                 (price_result (PInt 7) (PInt 10) (Fin 0.8)
                    (PStr "RandomForestRegressor-v1.0")))
              [price_record sample_features (PInt 10) (Fin 0.8) (PStr "1.0")])
    as (fields & Hbody & Hrun).
  - reflexivity.
  - reflexivity.
  - eexists. split; [exact Hrun|]. apply lookup_insert_eq.
Defined.

(** C8, as stated, fails: with the price model loaded, a body that parses
    to a JSON list, and a body whose parsing raises a 400, are both answered
    with status 500, which is not a 4xx status and is the status of a
    missing model. *)
Lemma malformed_input_not_client_error :
  let answer body :=
    App.serve (App.predict_price numpy_rejects str_unknown sample_globals
                 {| App.request_json := body; App.random_uniform := Fin 0.8;
                    App.supabase_insert := fun _ => Ok (PList []) |}) in
  answer (Ok (PList [PInt 1]))
  = (Some {| App.body := App.JsonError (App.StrOf AttributeError); App.status := 500 |}, [])
  /\ answer (Raise (HTTPException 400))
     = (Some {| App.body := App.JsonError (App.StrOf (HTTPException 400));
                App.status := 500 |}, [])
  /\ ~ (400 <= 500 < 500)%Z.
Proof.
  cbv zeta. split; [reflexivity|]. split; [reflexivity|]. lia.
Qed.

Lemma malformed_input_is_server_error_witness :
  exists e,
    App.serve (App.predict_demand numpy_rejects str_unknown sample_globals
                 {| App.request_json := Ok (PStr "not an object");
                    App.random_uniform := Fin 0.8;
                    App.supabase_insert := fun _ => Ok (PList []) |})
    = (Some {| App.body := App.JsonError (App.StrOf e); App.status := 500 |}, []).
Proof.
  destruct (malformed_input_is_server_error numpy_rejects str_unknown sample_globals
              {| App.request_json := Ok (PStr "not an object");
                 App.random_uniform := Fin 0.8;
                 App.supabase_insert := fun _ => Ok (PList []) |}) as [_ Hdemand].
  - intros d. discriminate.
  - apply (Hdemand (fun _ => Ok (Fin 0.5))). reflexivity.
Defined.

(** ** Training-time against serving-time encoding *)

Lemma list_to_map_keyed {A} (g : string -> A) (col : list string) (v : string) :
  v ∈ col ->
  (list_to_map ((fun x => (x, g x)) <$> col) : gmap string A) !! v = Some (g v).
Proof.
  induction col as [|x col IH]; intros Hv.
  - inversion Hv.
  - rewrite fmap_cons, list_to_map_cons.
    destruct (decide (x = v)) as [->|Hne].
    + apply lookup_insert_eq.
    + rewrite lookup_insert_ne by exact Hne. apply IH.
      apply elem_of_cons in Hv as [->|Hv]; [congruence|exact Hv].
Qed.

Lemma value_counts_lookup (col : list string) (v : string) :
  v ∈ col ->
  Train.value_counts col !! v = Some (PFloat (Fin (trained_frequency col v))).
Proof.
  intros Hv. unfold Train.value_counts.
  apply (list_to_map_keyed (fun v => PFloat (Fin (trained_frequency col v)))). exact Hv.
Qed.

Lemma trained_encoding (df : Train.frame) (i : nat) (r : Train.listing) :
  df !! i = Some r ->
  exists trained,
    Train.engineer_features df !! i = Some trained
    /\ trained !! "neighbourhood_encoded"
       = Some (PFloat (Fin (trained_frequency (Train.neighbourhood <$> df)
                              (Train.neighbourhood r)))).
Proof.
  intros Hi. unfold Train.engineer_features. cbv zeta.
  rewrite list_lookup_fmap, Hi. cbn [fmap option_fmap option_map].
  eexists. split; [reflexivity|].
  apply lookup_union_Some_l, lookup_union_Some_l.
  rewrite lookup_insert_eq. unfold Train.map_value.
  rewrite value_counts_lookup; [reflexivity|].
  apply list_elem_of_fmap. exists r. split; [reflexivity|].
  eapply list_elem_of_lookup_2. exact Hi.
Qed.

Lemma int64_in_range (z : Z) :
  int64 z = true -> (Z.abs z <? Py.overflow_bound)%Z = true.
Proof.
  unfold int64. intros H. apply andb_prop in H as [Hlo Hhi].
  apply Z.leb_le in Hlo. apply Z.ltb_lt in Hhi. apply Z.ltb_lt.
  assert (Hb : (2 ^ 63 < Py.overflow_bound)%Z) by (vm_compute; reflexivity).
  revert Hb. generalize Py.overflow_bound. intros B Hb.
  change (2 ^ 63)%Z with 9223372036854775808%Z in *. lia.
Qed.

Lemma served_encoding (r : Train.listing) :
  generated r = true ->
  exists served,
    App.engineer_features (Train.raw_record r) = Ok served
    /\ served !! "neighbourhood_encoded"
       = Some (PFloat (Fin (served_frequency (Train.neighbourhood r)))).
Proof.
  unfold generated. intros H.
  apply andb_prop in H as [H Hnr]. apply andb_prop in H as [Hname Hmn].
  apply bool_decide_eq_true in Hname.
  apply int64_in_range in Hnr, Hmn.
  unfold Train.raw_record.
  set (d := list_to_map _ : gmap string pyval).
  assert (Hwt : well_typed d = true).
  { change (well_typed d) with
      (true && (Z.abs (Train.minimum_nights r) <? Py.overflow_bound)%Z
       && (Z.abs (Train.number_of_reviews r) <? Py.overflow_bound)%Z
       && implb (is_positive (PInt (Train.number_of_reviews r))) true && true).
    rewrite Hnr, Hmn. now destruct (is_positive _). }
  destruct (engineer_features_defined d Hwt) as (ratio & density & nights & Hserved & _).
  eexists. split; [exact Hserved|].
  change (field d "neighbourhood" (PStr "Harlem")) with (PStr (Train.neighbourhood r)).
  unfold Train.generator_neighbourhoods in Hname.
  repeat (apply elem_of_cons in Hname as [->|Hname]; [reflexivity|]).
  inversion Hname.
Qed.

Lemma count_cons (v x : string) (col : list string) :
  Train.count v (x :: col)
  = ((if decide (x = v) then 1 else 0) + Train.count v col)%nat.
Proof.
  unfold Train.count. rewrite filter_cons. now destruct (decide (x = v)).
Qed.

Lemma count_positive (v : string) (col : list string) :
  Train.count v col <> 0%nat -> v ∈ col.
Proof.
  unfold Train.count. intros H.
  destruct (filter (fun x => x = v) col) as [|y l] eqn:Hf; [now destruct H|].
  assert (Hy : y ∈ filter (fun x => x = v) col) by (rewrite Hf; left).
  apply list_elem_of_filter in Hy as [-> Hy]. exact Hy.
Qed.

Ltac decide_strings :=
  repeat match goal with
         | |- context [decide (?a = ?b)] =>
             first [ rewrite (decide_True (P := a = b)) by reflexivity
                   | rewrite (decide_False (P := a = b)) by discriminate ]
         end.

(** Every row's name is one of the ten, so the ten counts add up to the
    number of rows. *)
Lemma count_total (col : list string) :
  (forall x, x ∈ col -> x ∈ Train.generator_neighbourhoods) ->
  sum_list ((fun name => Train.count name col) <$> Train.generator_neighbourhoods)
  = length col.
Proof.
  induction col as [|x col IH]; intros Hall; [reflexivity|].
  assert (Hx : x ∈ Train.generator_neighbourhoods) by (apply Hall; left).
  assert (IH' : sum_list ((fun name => Train.count name col)
                            <$> Train.generator_neighbourhoods) = length col).
  { apply IH. intros y Hy. apply Hall. now right. }
  clear IH Hall. revert IH'.
  unfold Train.generator_neighbourhoods in *.
  cbn [fmap list_fmap sum_list length]. unfold id. rewrite !count_cons.
  repeat (apply elem_of_cons in Hx as [->|Hx]; [decide_strings; lia|]).
  inversion Hx.
Qed.

Lemma frequency_equation (k : Z) (c N : nat) :
  N <> 0%nat ->
  Qeq_bool (k # 1000) (Qred (inject_Z (Z.of_nat c) / inject_Z (Z.of_nat N))) = true ->
  (k * Z.of_nat N = 1000 * Z.of_nat c)%Z.
Proof.
  intros HN H. apply Qeq_bool_iff in H. rewrite Qred_correct in H.
  assert (Hpos : (0 < Z.of_nat N)%Z) by lia.
  destruct (Z.of_nat N) as [|p|p]; [lia| |lia].
  unfold Qeq, Qdiv, Qmult, Qinv, inject_Z in H. simpl in H. lia.
Qed.

Lemma frequencies_differ (col : list string) :
  col <> [] ->
  (forall x, x ∈ col -> x ∈ Train.generator_neighbourhoods) ->
  exists x, x ∈ col
            /\ Qeq_bool (served_frequency x) (trained_frequency col x) = false.
Proof.
  intros Hne Hall.
  destruct (existsb (fun x => negb (Qeq_bool (served_frequency x) (trained_frequency col x)))
              col) eqn:Hex.
  - apply existsb_exists in Hex as (x & Hx & Hd).
    exists x. split; [now apply list_elem_of_In|].
    now apply negb_true_iff in Hd.
  - exfalso.
    assert (Hagree : forall x, x ∈ col ->
              Qeq_bool (served_frequency x) (trained_frequency col x) = true).
    { intros x Hx. apply list_elem_of_In in Hx.
      destruct (Qeq_bool _ _) eqn:Hq; [reflexivity|].
      assert (existsb (fun x => negb (Qeq_bool (served_frequency x)
                                        (trained_frequency col x))) col = true).
      { apply existsb_exists. exists x. split; [exact Hx|]. now rewrite Hq. }
      congruence. }
    assert (HN : length col <> 0%nat) by (destruct col; [congruence|discriminate]).
    assert (Hbound : forall name k,
              served_frequency name = (k # 1000) -> (0 <= k)%Z ->
              (1000 * Z.of_nat (Train.count name col) <= k * Z.of_nat (length col))%Z).
    { intros name k Hk Hpos.
      destruct (Nat.eq_dec (Train.count name col) 0) as [->|Hc]; [lia|].
      specialize (Hagree name (count_positive _ _ Hc)).
      rewrite Hk in Hagree. apply frequency_equation in Hagree; [lia|exact HN]. }
    pose proof (count_total col Hall) as Htotal.
    unfold Train.generator_neighbourhoods in Htotal.
    cbn [fmap list_fmap sum_list] in Htotal. unfold id in Htotal.
    pose proof (Hbound "Harlem" 54%Z eq_refl ltac:(lia)).
    pose proof (Hbound "Williamsburg" 78%Z eq_refl ltac:(lia)).
    pose proof (Hbound "Upper West Side" 42%Z eq_refl ltac:(lia)).
    pose proof (Hbound "Bedford-Stuyvesant" 76%Z eq_refl ltac:(lia)).
    pose proof (Hbound "East Village" 35%Z eq_refl ltac:(lia)).
    pose proof (Hbound "Brooklyn Heights" 20%Z eq_refl ltac:(lia)).
    pose proof (Hbound "Astoria" 28%Z eq_refl ltac:(lia)).
    pose proof (Hbound "Bushwick" 47%Z eq_refl ltac:(lia)).
    pose proof (Hbound "Crown Heights" 31%Z eq_refl ltac:(lia)).
    pose proof (Hbound "Upper East Side" 34%Z eq_refl ltac:(lia)).
    lia.
Qed.

(** C1 fails on the code: whatever frame of generated rows the training
    pipeline is run on, some row's neighbourhood is encoded by the training
    pipeline (its relative frequency in the frame) and by the serving code
    (a constant of its table) as two different numbers.  The ten constants
    add up to 0.445, the frequencies to 1. *)
Theorem neighbourhood_encoding_drift (df : list Train.listing) :
  df <> [] ->
  (forall r, r ∈ df -> generated r = true) ->
  exists i r trained served a b,
    df !! i = Some r
    /\ Train.engineer_features df !! i = Some trained
    /\ App.engineer_features (Train.raw_record r) = Ok served
    /\ trained !! "neighbourhood_encoded" = Some (PFloat (Fin a))
    /\ served !! "neighbourhood_encoded" = Some (PFloat (Fin b))
    /\ ~ a == b.
Proof.
  intros Hne Hgen.
  destruct (frequencies_differ (Train.neighbourhood <$> df)) as (x & Hx & Hdiff).
  - destruct df; [congruence|discriminate].
  - intros x Hx. apply list_elem_of_fmap in Hx as (r & -> & Hr).
    specialize (Hgen r Hr). unfold generated in Hgen.
    apply andb_prop in Hgen as [Hgen _]. apply andb_prop in Hgen as [Hgen _].
    now apply bool_decide_eq_true in Hgen.
  - apply list_elem_of_fmap in Hx as (r & -> & Hr).
    apply list_elem_of_lookup in Hr as [i Hi].
    destruct (trained_encoding df i r Hi) as (trained & Htrained & Henc).
    destruct (served_encoding r) as (served & Hserved & Hsenc).
    { apply Hgen. eapply list_elem_of_lookup_2. exact Hi. }
    exists i, r, trained, served.
    exists (trained_frequency (Train.neighbourhood <$> df) (Train.neighbourhood r)).
    exists (served_frequency (Train.neighbourhood r)).
    repeat split; try assumption.
    intros Heq. symmetry in Heq. apply Qeq_bool_iff in Heq. congruence.
Qed.

Lemma neighbourhood_encoding_drift_witness :
  exists i r trained served a b,
    [sample_listing] !! i = Some r
    /\ Train.engineer_features [sample_listing] !! i = Some trained
    /\ App.engineer_features (Train.raw_record r) = Ok served
    /\ trained !! "neighbourhood_encoded" = Some (PFloat (Fin a))
    /\ served !! "neighbourhood_encoded" = Some (PFloat (Fin b))
    /\ ~ a == b.
Proof.
  apply (neighbourhood_encoding_drift [sample_listing]).
  - discriminate.
  - intros r Hr. apply list_elem_of_singleton in Hr. subst r. reflexivity.
Defined.

(** On a frame holding the sample listing alone, training encodes Harlem
    as 1 and serving as 0.054. *)
Example sample_listing_encodings :
  (fun row => row !! "neighbourhood_encoded") <$> Train.engineer_features [sample_listing]
  = [Some (PFloat (Fin 1))]
  /\ (fun served => served !! "neighbourhood_encoded")
       <$> (match App.engineer_features (Train.raw_record sample_listing) with
            | Ok served => Some served
            | Raise _ => None
            end)
     = Some (Some (PFloat (Fin 0.054))).
Proof. split; reflexivity. Qed.

Lemma list_to_map_renamed {A} (key : string -> string) (g : string -> A)
    (col : list string) (v : string) :
  Inj (=) (=) key -> v ∈ col ->
  (list_to_map ((fun x => (key x, g x)) <$> col) : gmap string A) !! key v = Some (g v).
Proof.
  intros Hinj. induction col as [|x col IH]; intros Hv.
  - inversion Hv.
  - rewrite fmap_cons, list_to_map_cons.
    destruct (decide (x = v)) as [->|Hne].
    + apply lookup_insert_eq.
    + rewrite lookup_insert_ne by (intros Hk; apply Hne, Hinj, Hk). apply IH.
      apply elem_of_cons in Hv as [->|Hv]; [congruence|exact Hv].
Qed.

Lemma get_dummies_lookup (prefix : string) (col : list string) (value c : string) :
  c ∈ col ->
  Train.get_dummies prefix col value !! (prefix ++ "_" ++ c)
  = Some (PBool (bool_decide (value = c))).
Proof.
  intros Hc. unfold Train.get_dummies.
  apply (list_to_map_renamed (fun v => prefix ++ "_" ++ v)
           (fun v => PBool (bool_decide (value = v)))); [|exact Hc].
  intros x y Hxy. apply (inj (String.app prefix)) in Hxy. now injection Hxy.
Qed.

Lemma get_dummies_other (prefix : string) (col : list string) (value k : string) :
  (forall v, prefix ++ "_" ++ v <> k) ->
  Train.get_dummies prefix col value !! k = None.
Proof.
  intros Hk. unfold Train.get_dummies. apply not_elem_of_list_to_map.
  intros Hin. apply list_elem_of_fmap in Hin as ([k' x] & -> & Hin).
  apply list_elem_of_fmap in Hin as (v & [= -> ->] & _).
  now apply (Hk v).
Qed.

Lemma indicator_decide (value c : string) :
  App.indicator (PStr value) c = PInt (if bool_decide (value = c) then 1 else 0).
Proof.
  unfold App.indicator. cbn [Py.eq_str].
  destruct (String.eqb_spec value c) as [->|Hne].
  - now rewrite bool_decide_eq_true_2.
  - now rewrite bool_decide_eq_false_2.
Qed.

(** X17: the two pipelines set the one-hot indicators by the same rule: for a
    category of the enumeration that occurs in the training frame, the
    training cell is the truth value of "the row's value is this category"
    and the serving cell is that truth value as 1 or 0. *)
Lemma one_hot_agrees (df : list Train.listing) (i : nat) (r : Train.listing) :
  df !! i = Some r ->
  generated r = true ->
  exists trained served,
    Train.engineer_features df !! i = Some trained
    /\ App.engineer_features (Train.raw_record r) = Ok served
    /\ (forall c, c ∈ room_types -> c ∈ Train.room_type <$> df ->
          trained !! ("room_type_" ++ c) = Some (PBool (bool_decide (Train.room_type r = c)))
          /\ served !! ("room_type_" ++ c)
             = Some (PInt (if bool_decide (Train.room_type r = c) then 1 else 0)))
    /\ (forall c, c ∈ neighbourhood_groups -> c ∈ Train.neighbourhood_group <$> df ->
          trained !! ("neighbourhood_group_" ++ c)
          = Some (PBool (bool_decide (Train.neighbourhood_group r = c)))
          /\ served !! ("neighbourhood_group_" ++ c)
             = Some (PInt (if bool_decide (Train.neighbourhood_group r = c) then 1 else 0))).
Proof.
  intros Hi Hgen.
  destruct (served_encoding r Hgen) as (served & Hserved & _).
  pose proof Hserved as Hinv. apply engineer_features_inv in Hinv.
  destruct Hinv as (d & ratio & density & nights & enc & Hd & -> & _).
  unfold Train.raw_record in Hd. injection Hd as <-.
  do 2 eexists.
  split.
  { unfold Train.engineer_features. cbv zeta. rewrite list_lookup_fmap, Hi. reflexivity. }
  split; [exact Hserved|].
  split.
  - intros c Hc Hcol. split.
    + apply lookup_union_Some_l. rewrite lookup_union_r.
      * unfold room_types in Hc.
        repeat (apply elem_of_cons in Hc as [->|Hc];
                [exact (get_dummies_lookup "room_type" _ _ _ Hcol)|]).
        inversion Hc.
      * unfold room_types in Hc.
        repeat (apply elem_of_cons in Hc as [->|Hc]; [reflexivity|]).
        inversion Hc.
    + rewrite <- indicator_decide. unfold room_types in Hc.
      repeat (apply elem_of_cons in Hc as [->|Hc]; [reflexivity|]).
      inversion Hc.
  - intros c Hc Hcol. split.
    + rewrite lookup_union_r.
      * unfold neighbourhood_groups in Hc.
        repeat (apply elem_of_cons in Hc as [->|Hc];
                [exact (get_dummies_lookup "neighbourhood_group" _ _ _ Hcol)|]).
        inversion Hc.
      * apply lookup_union_None. split.
        -- unfold neighbourhood_groups in Hc.
           repeat (apply elem_of_cons in Hc as [->|Hc]; [reflexivity|]).
           inversion Hc.
        -- unfold neighbourhood_groups in Hc.
           repeat (apply elem_of_cons in Hc as [->|Hc];
                   [apply get_dummies_other; intros v; discriminate|]).
           inversion Hc.
    + rewrite <- indicator_decide. unfold neighbourhood_groups in Hc.
      repeat (apply elem_of_cons in Hc as [->|Hc]; [reflexivity|]).
      inversion Hc.
Qed.

(** ** Further properties of the feature engineer *)

Lemma field_insert_ne (d : gmap string pyval) (k key : string) (v default : pyval) :
  k <> key -> field (<[k := v]> d) key default = field d key default.
Proof. intros Hne. unfold field. now rewrite lookup_insert_ne. Qed.

(** X1: a raw field that [engineer_features] does not read changes nothing: adding
    or overwriting any key outside the ten it reads gives the same outcome. *)
Theorem engineer_features_ignores_other_keys (d : gmap string pyval) (k : string)
    (v : pyval) :
  k ∉ raw_keys ->
  App.engineer_features (PDict (<[k := v]> d)) = App.engineer_features (PDict d).
Proof.
  intros Hk. unfold raw_keys in Hk.
  repeat (apply not_elem_of_cons in Hk as [? Hk]).
  rewrite !engineer_features_dict. unfold assemble.
  rewrite !(field_insert_ne d k) by assumption. reflexivity.
Qed.

Lemma engineer_features_ignores_other_keys_witness :
  App.engineer_features (PDict (<["price" := PStr "n/a"]> sample_raw))
  = App.engineer_features (PDict sample_raw).
Proof.
  apply engineer_features_ignores_other_keys.
  unfold raw_keys. intros Hin.
  repeat (apply elem_of_cons in Hin as [Hin|Hin]; [discriminate Hin|]).
  inversion Hin.
Defined.

Lemma truediv_number (a b : pyval) (x : pyval) :
  Py.truediv a b = Ok x -> is_number a = true /\ is_number b = true.
Proof.
  destruct a as [|?|?|?|?|?|?]; destruct b as [|?|?|?|?|?|?];
    try (intros _; split; reflexivity); intros H; discriminate H.
Qed.

Lemma gt_int_number (v : pyval) (n : Z) (b : bool) :
  Py.gt_int v n = Ok b -> is_number v = true.
Proof. destruct v; try (intros _; reflexivity); intros H; discriminate H. Qed.

Lemma table_get_hashable (table : gmap string pyval) (key default x : pyval) :
  Py.table_get table key default = Ok x -> hashable key = true.
Proof. destruct key; try (intros _; reflexivity); intros H; discriminate H. Qed.

(** X2: when [engineer_features] returns, the input is an object whose
    availability_365, minimum_nights and number_of_reviews are ints, bools or
    floats (a numeric string is not coerced), whose reviews_per_month is one
    too when number_of_reviews > 0, and whose neighbourhood is hashable. *)
Theorem engineer_features_accepts_only_numbers (raw : pyval) (fd : gmap string pyval) :
  App.engineer_features raw = Ok fd ->
  exists d,
    raw = PDict d
    /\ is_number (field d "availability_365" (PInt 365)) = true
    /\ is_number (field d "minimum_nights" (PInt 1)) = true
    /\ is_number (field d "number_of_reviews" (PInt 0)) = true
    /\ (is_positive (field d "number_of_reviews" (PInt 0)) = true ->
        is_number (field d "reviews_per_month" (PInt 0)) = true)
    /\ hashable (field d "neighbourhood" (PStr "Harlem")) = true.
Proof.
  intros H. apply engineer_features_inv in H.
  destruct H as (d & ratio & density & nights & enc & -> & _ & Hratio
                 & (has & Hhas & Hdens) & Hnights & Henc).
  exists d. split; [reflexivity|].
  split; [exact (proj1 (truediv_number _ _ _ Hratio))|].
  split; [exact (proj1 (truediv_number _ _ _ Hnights))|].
  split; [exact (gt_int_number _ _ _ Hhas)|].
  split; [|exact (table_get_hashable _ _ _ _ Henc)].
  unfold is_positive. rewrite Hhas. intros ->.
  exact (proj1 (truediv_number _ _ _ Hdens)).
Qed.

Lemma engineer_features_accepts_only_numbers_witness :
  exists d,
    PDict sample_raw = PDict d
    /\ is_number (field d "availability_365" (PInt 365)) = true.
Proof.
  destruct (engineer_features_accepts_only_numbers (PDict sample_raw) sample_features)
    as (d & Hd & Hav & _).
  - reflexivity.
  - exists d. split; assumption.
Defined.

(** X3: reviews_density is the int 0 whenever number_of_reviews is not strictly
    positive (zero, negative, NaN, -inf), whatever reviews_per_month holds;
    otherwise it is reviews_per_month / number_of_reviews. *)
Theorem reviews_density_guard (d fd : gmap string pyval) :
  App.engineer_features (PDict d) = Ok fd ->
  (is_positive (field d "number_of_reviews" (PInt 0)) = false ->
   fd !! "reviews_density" = Some (PInt 0))
  /\ (is_positive (field d "number_of_reviews" (PInt 0)) = true ->
      exists density,
        Py.truediv (field d "reviews_per_month" (PInt 0))
          (field d "number_of_reviews" (PInt 0)) = Ok density
        /\ fd !! "reviews_density" = Some density).
Proof.
  intros H. apply engineer_features_inv in H.
  destruct H as (d' & ratio & density & nights & enc & [= <-] & -> & _
                 & (has & Hhas & Hdens) & _).
  unfold is_positive. rewrite Hhas. split; intros ->.
  - injection Hdens as <-. reflexivity.
  - exists density. split; [exact Hdens|reflexivity].
Qed.

Lemma reviews_density_guard_witness :
  let d : gmap string pyval :=
    <["reviews_per_month" := PList []]> {[ "number_of_reviews" := PFloat NaN ]} in
  let fd := assemble d (PFloat (Fin 1)) (PInt 0) (PFloat (Fin (1 # 365)))
              (PFloat (Fin 0.054)) in
  App.engineer_features (PDict d) = Ok fd /\ fd !! "reviews_density" = Some (PInt 0).
Proof.
  intros d fd. split; [reflexivity|].
  apply (proj1 (reviews_density_guard d fd eq_refl)). reflexivity.
Defined.

Lemma quotient_365_below (B : Z) (a : Q) :
  (Qabs a < inject_Z B)%Q -> Qle_bool (inject_Z B) (Qabs (a / 365)) = false.
Proof.
  intros Ha. destruct (Qle_bool _ _) eqn:Hle; [exfalso|reflexivity].
  apply Qle_bool_iff in Hle. destruct a as [n p].
  unfold Qlt, Qle, Qdiv, Qmult, Qinv, Qabs, inject_Z in *. simpl in *. nia.
Qed.

Lemma truediv_365_value (v ratio : pyval) (a : Q) :
  Py.truediv v (PInt 365) = Ok ratio ->
  finite_value v = Some a ->
  (Qabs a < inject_Z Py.overflow_bound)%Q ->
  exists q, ratio = PFloat (Fin q) /\ q == a / 365.
Proof.
  intros Hdiv Hv Ha.
  assert (Hround : Py.round_finite (a / 365) = Fin (Qred (a / 365))).
  { unfold Py.round_finite. now rewrite quotient_365_below. }
  destruct v as [|b|z|[q| |]|?|?|?]; try discriminate Hv; injection Hv as <-.
  - destruct b.
    + change (Py.truediv (PBool true) (PInt 365))
        with (match Py.round_finite (1 / 365) with
              | Fin q => Ok (PFloat (Fin q))
              | _ => Raise OverflowError
              end) in Hdiv.
      rewrite Hround in Hdiv. injection Hdiv as <-.
      eexists. split; [reflexivity|apply Qred_correct].
    + change (Py.truediv (PBool false) (PInt 365))
        with (match Py.round_finite (0 / 365) with
              | Fin q => Ok (PFloat (Fin q))
              | _ => Raise OverflowError
              end) in Hdiv.
      rewrite Hround in Hdiv. injection Hdiv as <-.
      eexists. split; [reflexivity|apply Qred_correct].
  - change (Py.truediv (PInt z) (PInt 365))
      with (match Py.round_finite (inject_Z z / 365) with
            | Fin q => Ok (PFloat (Fin q))
            | _ => Raise OverflowError
            end) in Hdiv.
    rewrite Hround in Hdiv. injection Hdiv as <-.
    eexists. split; [reflexivity|apply Qred_correct].
  - change (Py.truediv (PFloat (Fin q)) (PInt 365))
      with (Ok (PFloat (Py.round_finite (q / 365)))) in Hdiv.
    rewrite Hround in Hdiv. injection Hdiv as <-.
    eexists. split; [reflexivity|apply Qred_correct].
Qed.

(** X4: availability_ratio and min_nights_ratio are the finite field value
    divided by 365. *)
Theorem ratios_divide_by_365 (d fd : gmap string pyval) :
  App.engineer_features (PDict d) = Ok fd ->
  (forall a, finite_value (field d "availability_365" (PInt 365)) = Some a ->
             (Qabs a < inject_Z Py.overflow_bound)%Q ->
             exists q, fd !! "availability_ratio" = Some (PFloat (Fin q)) /\ q == a / 365)
  /\ (forall a, finite_value (field d "minimum_nights" (PInt 1)) = Some a ->
                (Qabs a < inject_Z Py.overflow_bound)%Q ->
                exists q, fd !! "min_nights_ratio" = Some (PFloat (Fin q)) /\ q == a / 365).
Proof.
  intros H. apply engineer_features_inv in H.
  destruct H as (d' & ratio & density & nights & enc & [= <-] & -> & Hratio & _ & Hnights & _).
  split; intros a Hv Ha.
  - destruct (truediv_365_value _ _ a Hratio Hv Ha) as (q & -> & Hq).
    exists q. split; [reflexivity|exact Hq].
  - destruct (truediv_365_value _ _ a Hnights Hv Ha) as (q & -> & Hq).
    exists q. split; [reflexivity|exact Hq].
Qed.

Lemma ratios_divide_by_365_witness :
  exists q, sample_features !! "availability_ratio" = Some (PFloat (Fin q)) /\ q == 365 / 365.
Proof.
  destruct (ratios_divide_by_365 sample_raw sample_features eq_refl) as [Hav _].
  apply (Hav 365%Q); reflexivity.
Defined.

(** ** Further properties of the vector aligner *)

Section AlignerMore.

Variable np_convert_object : pyval -> result pyfloat.

Lemma fill_features_first_failure (fd : gmap string pyval) (before : list string)
    (col : string) (after : list string) (v : pyval) (e : exn) :
  (forall c x, c ∈ before -> fd !! c = Some x ->
               exists f, App.np_store np_convert_object x = Ok f) ->
  fd !! col = Some v ->
  App.np_store np_convert_object v = Raise e ->
  forall (k : nat) (arr : list pyfloat),
    App.fill_features np_convert_object
      (zip (seq k (length (before ++ col :: after)%list)) (before ++ col :: after)%list) fd arr
    = Raise e.
Proof.
  intros Hbefore Hcol Hv.
  induction before as [|c before IH]; intros k arr.
  - cbn [app length seq zip zip_with App.fill_features]. rewrite Hcol, Hv. reflexivity.
  - cbn [app length seq zip zip_with App.fill_features].
    assert (IH' : forall k arr,
              App.fill_features np_convert_object
                (zip (seq k (length (before ++ col :: after)%list)) (before ++ col :: after)%list)
                fd arr = Raise e).
    { apply IH. intros c' x Hc'. apply Hbefore. now right. }
    destruct (fd !! c) as [x|] eqn:Hc; [|apply IH'].
    destruct (Hbefore c x) as [f Hf]; [left|exact Hc|].
    rewrite Hf. cbn [rbind]. apply IH'.
Qed.

(** X5: if numpy cannot store the value of a schema-named feature, and can store
    those of all earlier schema names, the aligner raises that conversion's
    exception. *)
Theorem prepare_features_array_first_failure (features_dict : gmap string pyval)
    (before : list string) (col : string) (after : list string) (v : pyval) (e : exn) :
  (forall c x, c ∈ before -> features_dict !! c = Some x ->
               exists f, App.np_store np_convert_object x = Ok f) ->
  features_dict !! col = Some v ->
  App.np_store np_convert_object v = Raise e ->
  App.prepare_features_array np_convert_object (Some (before ++ col :: after)%list) features_dict
  = Raise e.
Proof.
  intros Hbefore Hcol Hv. unfold App.prepare_features_array, App.enumerate.
  now apply fill_features_first_failure with (v := v).
Qed.

Lemma fill_features_agree (fd1 fd2 : gmap string pyval) (cols : list string) :
  (forall c, c ∈ cols -> fd1 !! c = fd2 !! c) ->
  forall (k : nat) (arr : list pyfloat),
    App.fill_features np_convert_object (zip (seq k (length cols)) cols) fd1 arr
    = App.fill_features np_convert_object (zip (seq k (length cols)) cols) fd2 arr.
Proof.
  induction cols as [|c cols IH]; intros Hagree k arr; [reflexivity|].
  cbn [length seq zip zip_with App.fill_features].
  rewrite <- (Hagree c) by left.
  assert (IH' : forall k arr,
    App.fill_features np_convert_object (zip (seq k (length cols)) cols) fd1 arr
    = App.fill_features np_convert_object (zip (seq k (length cols)) cols) fd2 arr).
  { apply IH. intros c' Hc'. apply Hagree. now right. }
  destruct (fd1 !! c) as [x|]; [|apply IH'].
  destruct (App.np_store np_convert_object x); cbn [rbind]; [apply IH'|reflexivity].
Qed.

(** X6: the aligner reads only the features the schema names: two feature sets
    that agree on the schema names give the same outcome. *)
Theorem prepare_features_array_reads_schema_only (fd1 fd2 : gmap string pyval)
    (feature_columns : list string) :
  (forall c, c ∈ feature_columns -> fd1 !! c = fd2 !! c) ->
  App.prepare_features_array np_convert_object (Some feature_columns) fd1
  = App.prepare_features_array np_convert_object (Some feature_columns) fd2.
Proof.
  intros Hagree. unfold App.prepare_features_array, App.enumerate.
  now apply fill_features_agree.
Qed.

End AlignerMore.

Lemma prepare_features_array_first_failure_witness :
  App.prepare_features_array numpy_rejects (Some ["latitude"; "room_type"; "longitude"])
    (<["longitude" := PList []]> (<["room_type" := PStr "Private room"]>
       {[ "latitude" := PInt 3 ]}))
  = Raise TypeError.
Proof.
  apply (prepare_features_array_first_failure numpy_rejects _ ["latitude"] "room_type"
           ["longitude"] (PStr "Private room") TypeError).
  - intros c x Hc. apply list_elem_of_singleton in Hc. subst c.
    intros [= <-]. eexists. reflexivity.
  - reflexivity.
  - reflexivity.
Defined.

Lemma prepare_features_array_reads_schema_only_witness :
  App.prepare_features_array numpy_rejects (Some ["latitude"])
    (<["note" := PStr "x"]> {[ "latitude" := PInt 3 ]})
  = App.prepare_features_array numpy_rejects (Some ["latitude"]) {[ "latitude" := PInt 3 ]}.
Proof.
  apply prepare_features_array_reads_schema_only.
  intros c Hc. apply list_elem_of_singleton in Hc. subst c. reflexivity.
Defined.

Lemma truediv_returns_float (a b x : pyval) :
  Py.truediv a b = Ok x -> exists f, x = PFloat f.
Proof.
  unfold Py.truediv.
  destruct (Py.as_int a) as [p|]; destruct (Py.as_int b) as [q|].
  - destruct (q =? 0)%Z; [discriminate|].
    destruct (Py.round_finite _); [|discriminate..]. intros [= <-]. eauto.
  - destruct b; try discriminate.
    destruct (Py.int_to_float p); cbn [rbind]; [|discriminate].
    destruct (Py.float_is_zero _); [discriminate|]. intros [= <-]. eauto.
  - destruct a; try discriminate.
    destruct (Py.int_to_float q); cbn [rbind]; [|discriminate].
    destruct (Py.float_is_zero _); [discriminate|]. intros [= <-]. eauto.
  - destruct a; try discriminate. destruct b; try discriminate.
    destruct (Py.float_is_zero _); [discriminate|]. intros [= <-]. eauto.
Qed.

Lemma table_value_float (s : string) (x : pyval) :
  App.neighbourhood_freq !! s = Some x -> in_range_number x = true.
Proof.
  intros H. apply elem_of_list_to_map_2 in H.
  repeat (apply elem_of_cons in H as [[= -> ->]|H]; [reflexivity|]).
  inversion H.
Qed.

Lemma indicator_in_range (v : pyval) (s : string) :
  in_range_number (App.indicator v s) = true.
Proof. unfold App.indicator. now destruct (Py.eq_str v s). Qed.

Lemma engineered_values_in_range (d fd : gmap string pyval) :
  numeric_raw d = true ->
  App.engineer_features (PDict d) = Ok fd ->
  forall col v, fd !! col = Some v -> in_range_number v = true.
Proof.
  unfold numeric_raw, well_typed. intros H Hfd.
  apply andb_prop in H as [H Hch]. apply andb_prop in H as [H Hrpm'].
  apply andb_prop in H as [H Hlo]. apply andb_prop in H as [H Hla].
  apply andb_prop in H as [H Hhash]. apply andb_prop in H as [H Hrpm].
  apply andb_prop in H as [H Hnr]. apply andb_prop in H as [Hav Hmn].
  apply engineer_features_inv in Hfd.
  destruct Hfd as (d' & ratio & density & nights & enc & [= <-] & -> & Hratio
                   & (has & _ & Hdens) & Hnights & Henc).
  apply truediv_returns_float in Hratio as [fr ->].
  apply truediv_returns_float in Hnights as [fn ->].
  assert (Hdensity : in_range_number density = true).
  { destruct has.
    - apply truediv_returns_float in Hdens as [f ->]. reflexivity.
    - injection Hdens as <-. reflexivity. }
  assert (Henc' : in_range_number enc = true).
  { rewrite (table_get_defined _ _ _ Hhash) in Henc. injection Henc as <-.
    destruct (field d "neighbourhood" (PStr "Harlem")); try reflexivity.
    destruct (App.neighbourhood_freq !! s) eqn:Hs; [|reflexivity].
    exact (table_value_float _ _ Hs). }
  intros col v Hcol. unfold assemble in Hcol.
  repeat (rewrite lookup_insert in Hcol;
          destruct (decide (_ = col));
          [injection Hcol as <-;
           first [assumption | reflexivity | apply indicator_in_range]|]).
  rewrite lookup_empty in Hcol. discriminate.
Qed.

Lemma engineered_alignment (np_convert_object : pyval -> result pyfloat)
    (d : gmap string pyval) (feature_columns : list string) :
  numeric_raw d = true ->
  exists fd feature_array,
    App.engineer_features (PDict d) = Ok fd
    /\ dom fd = list_to_set feature_names
    /\ App.prepare_features_array np_convert_object (Some feature_columns) fd
       = Ok feature_array
    /\ length feature_array = length feature_columns
    /\ (forall i col, feature_columns !! i = Some col ->
          feature_array !! i = Some (aligned_value fd col)).
Proof.
  intros Hnum.
  assert (Hwt : well_typed d = true).
  { pose proof Hnum as H. unfold numeric_raw in H.
    do 4 (apply andb_prop in H as [H _]). exact H. }
  destruct (engineer_features_defined d Hwt) as (ratio & density & nights & Hfd & _).
  pose proof (engineered_values_in_range d _ Hnum Hfd) as Hrange.
  eexists. unfold App.prepare_features_array, App.enumerate.
  destruct (fill_features_spec np_convert_object _ feature_columns
              (fun col v _ => Hrange col v) 0%nat
              (replicate (length feature_columns) (Fin 0)))
    as (arr & Harr & Hlen & _ & Hpos).
  { rewrite length_replicate. lia. }
  exists arr. split; [exact Hfd|]. split; [reflexivity|]. split; [exact Harr|].
  rewrite length_replicate in Hlen. split; [exact Hlen|].
  intros i col Hi. specialize (Hpos i col Hi). cbn [Nat.add] in Hpos.
  rewrite Hpos. unfold aligned_value.
  destruct (_ !! col); [reflexivity|].
  apply lookup_replicate_2. eapply lookup_lt_Some. exact Hi.
Qed.

Lemma aligned_value_unknown (fd : gmap string pyval) (col : string) :
  dom fd = list_to_set feature_names -> col ∉ feature_names ->
  aligned_value fd col = Fin 0.
Proof.
  intros Hdom Hcol. unfold aligned_value.
  assert (Hnone : fd !! col = None).
  { apply not_elem_of_dom. rewrite Hdom. now rewrite elem_of_list_to_set. }
  now rewrite Hnone.
Qed.

(** X7: on a raw record all of whose numeric fields are numbers a double can hold,
    engineering and aligning succeed for every schema; the vector has the
    schema's length and holds 0 wherever the schema names something that is
    not one of the 19 features. *)
Theorem numeric_input_aligns (np_convert_object : pyval -> result pyfloat)
    (d : gmap string pyval) (feature_columns : list string) :
  numeric_raw d = true ->
  exists fd feature_array,
    App.engineer_features (PDict d) = Ok fd
    /\ App.prepare_features_array np_convert_object (Some feature_columns) fd
       = Ok feature_array
    /\ length feature_array = length feature_columns
    /\ (forall i col, feature_columns !! i = Some col -> col ∉ feature_names ->
          feature_array !! i = Some (Fin 0)).
Proof.
  intros Hnum.
  destruct (engineered_alignment np_convert_object d feature_columns Hnum)
    as (fd & arr & Hfd & Hdom & Harr & Hlen & Hpos).
  exists fd, arr. split; [exact Hfd|]. split; [exact Harr|]. split; [exact Hlen|].
  intros i col Hi Hcol. rewrite (Hpos i col Hi).
  now rewrite (aligned_value_unknown fd col Hdom Hcol).
Qed.

Lemma numeric_input_aligns_witness :
  exists fd feature_array,
    App.engineer_features (PDict sample_raw) = Ok fd
    /\ App.prepare_features_array numpy_rejects (Some ["room_type"; "latitude"]) fd
       = Ok feature_array
    /\ length feature_array = 2%nat
    /\ feature_array !! 0%nat = Some (Fin 0).
Proof.
  destruct (numeric_input_aligns numpy_rejects sample_raw ["room_type"; "latitude"])
    as (fd & arr & Hfd & Harr & Hlen & Hzero).
  - reflexivity.
  - exists fd, arr. split; [exact Hfd|]. split; [exact Harr|]. split; [exact Hlen|].
    apply (Hzero 0%nat "room_type"); [reflexivity|].
    unfold feature_names. intros Hin.
    repeat (apply elem_of_cons in Hin as [Hin|Hin]; [discriminate Hin|]).
    inversion Hin.
Defined.

(** ** Further properties of the prediction handlers *)

Section HandlersMore.

Variable np_convert_object : pyval -> result pyfloat.
Variable py_str_other : pyval -> string.

Lemma inference_inv (m : App.model) (g : App.globals) (w : App.world)
    (fd : gmap string pyval) (raw : pyfloat) :
  inference np_convert_object m g w = Ok (fd, raw) ->
  exists input_data feature_array,
    App.request_json w = Ok input_data
    /\ App.engineer_features input_data = Ok fd
    /\ App.prepare_features_array np_convert_object (App.feature_columns g) fd
       = Ok feature_array
    /\ m feature_array = Ok raw.
Proof.
  unfold inference.
  destruct (App.request_json w) as [input|] eqn:Hin; cbn [rbind]; [|discriminate].
  destruct (App.engineer_features input) as [fd'|] eqn:Hfd; cbn [rbind]; [|discriminate].
  destruct (App.prepare_features_array _ _ fd') as [vec|] eqn:Hvec; cbn [rbind];
    [|discriminate].
  destruct (m vec) as [x|] eqn:Hx; cbn [rbind]; [|discriminate].
  intros [= <- <-]. exists input, vec. repeat split; assumption || reflexivity.
Qed.

(** X8: both prediction handlers always answer: with status 200 and exactly one
    record handed to the sink, or with status 500, a structured error and
    nothing handed to the sink. *)
Theorem prediction_answers (g : App.globals) (w : App.world) :
  (exists r log,
     App.serve (App.predict_price np_convert_object py_str_other g w) = (Some r, log)
     /\ ((App.status r = 200%Z
          /\ exists fields record, App.body r = App.JsonResult fields /\ log = [record])
         \/ (App.status r = 500%Z
             /\ exists reason, App.body r = App.JsonError reason /\ log = [])))
  /\ (exists r log,
        App.serve (App.predict_demand np_convert_object py_str_other g w) = (Some r, log)
        /\ ((App.status r = 200%Z
             /\ exists fields record, App.body r = App.JsonResult fields /\ log = [record])
            \/ (App.status r = 500%Z
                /\ exists reason, App.body r = App.JsonError reason /\ log = []))).
Proof.
  split.
  - rewrite predict_price_run.
    destruct (App.price_model g) as [m|];
      [|do 2 eexists; split; [reflexivity|right; split; [reflexivity|eauto]]].
    destruct (inference np_convert_object m g w) as [[fd raw]|];
      [|do 2 eexists; split; [reflexivity|right; split; [reflexivity|eauto]]].
    cbv zeta.
    destruct (App.metadata_version _ _) as [version|] eqn:Hv;
      [|do 2 eexists; split; [reflexivity|right; split; [reflexivity|eauto]]].
    destruct (version_tag_defined py_str_other _ _ "RandomForestRegressor" _ Hv)
      as [tag ->].
    do 2 eexists. split; [reflexivity|left; split; [reflexivity|eauto]].
  - rewrite predict_demand_run.
    destruct (App.demand_model g) as [m|];
      [|do 2 eexists; split; [reflexivity|right; split; [reflexivity|eauto]]].
    destruct (inference np_convert_object m g w) as [[fd raw]|];
      [|do 2 eexists; split; [reflexivity|right; split; [reflexivity|eauto]]].
    cbv zeta.
    destruct (App.metadata_version _ _) as [version|] eqn:Hv;
      [|do 2 eexists; split; [reflexivity|right; split; [reflexivity|eauto]]].
    destruct (version_tag_defined py_str_other _ _ "LightGBMClassifier" _ Hv)
      as [tag ->].
    do 2 eexists. split; [reflexivity|left; split; [reflexivity|eauto]].
Qed.

(** Neither handler looks at the other handler's model. *)
Lemma endpoints_independent (g : App.globals) (w : App.world) (other : option App.model) :
  App.serve (App.predict_price np_convert_object py_str_other
               {| App.price_model := App.price_model g; App.demand_model := other;
                  App.feature_columns := App.feature_columns g;
                  App.metadata := App.metadata g |} w)
  = App.serve (App.predict_price np_convert_object py_str_other g w)
  /\ App.serve (App.predict_demand np_convert_object py_str_other
                  {| App.price_model := other; App.demand_model := App.demand_model g;
                     App.feature_columns := App.feature_columns g;
                     App.metadata := App.metadata g |} w)
     = App.serve (App.predict_demand np_convert_object py_str_other g w).
Proof. split; reflexivity. Qed.

(** X9: with a model loaded but no schema, a request whose features can be
    engineered is answered 500 with the aligner's 'Feature columns not
    loaded', and nothing reaches the sink. *)
Theorem schema_missing_is_server_error (g : App.globals) (w : App.world)
    (input_data : pyval) (fd : gmap string pyval) :
  App.feature_columns g = None ->
  App.request_json w = Ok input_data ->
  App.engineer_features input_data = Ok fd ->
  (forall m, App.price_model g = Some m ->
     App.serve (App.predict_price np_convert_object py_str_other g w)
     = (Some (error_response (App.StrOf (ValueError "Feature columns not loaded"))), []))
  /\ (forall m, App.demand_model g = Some m ->
        App.serve (App.predict_demand np_convert_object py_str_other g w)
        = (Some (error_response (App.StrOf (ValueError "Feature columns not loaded"))), [])).
Proof.
  intros Hcols Hbody Hfd.
  assert (Hinf : forall m, inference np_convert_object m g w
                           = Raise (ValueError "Feature columns not loaded")).
  { intros m. unfold inference. rewrite Hbody. cbn [rbind]. rewrite Hfd. cbn [rbind].
    rewrite Hcols. reflexivity. }
  split; intros m Hm.
  - rewrite predict_price_run, Hm, Hinf. reflexivity.
  - rewrite predict_demand_run, Hm, Hinf. reflexivity.
Qed.

Lemma prediction_id_cases (outcome : result pyval) :
  (forall row rest id, outcome = Ok (PList (PDict row :: rest)) -> row !! "id" = Some id ->
     prediction_id outcome = id)
  /\ (forall row rest, outcome = Ok (PList (PDict row :: rest)) -> row !! "id" = None ->
        prediction_id outcome = PNone)
  /\ (forall data, outcome = Ok data -> Py.truthy data = false ->
        prediction_id outcome = PNone)
  /\ (forall e, outcome = Raise e -> prediction_id outcome = PNone).
Proof.
  unfold prediction_id. repeat split.
  - intros row rest id -> Hid. cbn. now rewrite Hid.
  - intros row rest -> Hid. cbn. now rewrite Hid.
  - intros data -> Hdata. cbn [rbind]. now rewrite Hdata.
  - now intros e ->.
Qed.

(** X10: on a 200 answer, prediction_id is the id of the first row the sink
    returned; it is null when that row has no id and when the sink returned
    nothing. *)
Theorem prediction_id_from_sink (g : App.globals) (w : App.world) (r : App.response)
    (log : App.sink_log) :
  App.serve (App.predict_price np_convert_object py_str_other g w) = (Some r, log)
  \/ App.serve (App.predict_demand np_convert_object py_str_other g w) = (Some r, log) ->
  App.status r = 200%Z ->
  exists fields record,
    App.body r = App.JsonResult fields
    /\ log = [record]
    /\ (forall row rest id,
          App.supabase_insert w record = Ok (PList (PDict row :: rest)) ->
          row !! "id" = Some id -> fields !! "prediction_id" = Some id)
    /\ (forall row rest,
          App.supabase_insert w record = Ok (PList (PDict row :: rest)) ->
          row !! "id" = None -> fields !! "prediction_id" = Some PNone)
    /\ (forall data, App.supabase_insert w record = Ok data -> Py.truthy data = false ->
          fields !! "prediction_id" = Some PNone).
Proof.
  intros [Hrun|Hrun] Hok.
  - destruct (predict_price_ok_inv _ _ g w r log Hrun Hok)
      as (m & fd & raw & version & tag & _ & _ & _ & _ & -> & ->).
    do 2 eexists. split; [reflexivity|]. split; [reflexivity|].
    destruct (prediction_id_cases (App.supabase_insert w
                (price_record fd (Py.max_int_float 10 raw) (App.random_uniform w) version)))
      as (Hid & Hnoid & Hempty & _).
    repeat split.
    + intros row rest id Hins Hrow.
      transitivity (Some (prediction_id (App.supabase_insert w
        (price_record fd (Py.max_int_float 10 raw) (App.random_uniform w) version))));
        [reflexivity|]. f_equal. eapply Hid; eassumption.
    + intros row rest Hins Hrow.
      transitivity (Some (prediction_id (App.supabase_insert w
        (price_record fd (Py.max_int_float 10 raw) (App.random_uniform w) version))));
        [reflexivity|]. f_equal. eapply Hnoid; eassumption.
    + intros data Hins Hdata.
      transitivity (Some (prediction_id (App.supabase_insert w
        (price_record fd (Py.max_int_float 10 raw) (App.random_uniform w) version))));
        [reflexivity|]. f_equal. eapply Hempty; eassumption.
  - destruct (predict_demand_ok_inv _ _ g w r log Hrun Hok)
      as (m & fd & raw & version & tag & _ & _ & _ & _ & -> & ->).
    do 2 eexists. split; [reflexivity|]. split; [reflexivity|].
    destruct (prediction_id_cases (App.supabase_insert w
                (demand_record fd (Py.clip raw (Fin 0) (Fin 1)) version)))
      as (Hid & Hnoid & Hempty & _).
    repeat split.
    + intros row rest id Hins Hrow.
      transitivity (Some (prediction_id (App.supabase_insert w
        (demand_record fd (Py.clip raw (Fin 0) (Fin 1)) version))));
        [reflexivity|]. f_equal. eapply Hid; eassumption.
    + intros row rest Hins Hrow.
      transitivity (Some (prediction_id (App.supabase_insert w
        (demand_record fd (Py.clip raw (Fin 0) (Fin 1)) version))));
        [reflexivity|]. f_equal. eapply Hnoid; eassumption.
    + intros data Hins Hdata.
      transitivity (Some (prediction_id (App.supabase_insert w
        (demand_record fd (Py.clip raw (Fin 0) (Fin 1)) version))));
        [reflexivity|]. f_equal. eapply Hempty; eassumption.
Qed.

Lemma version_of_entry (md entry : gmap string pyval) (kind name s : string) :
  md !! kind = Some (PDict entry) -> entry !! "version" = Some (PStr s) ->
  App.metadata_version (PDict md) kind = Ok (PStr s)
  /\ App.version_tag py_str_other (PDict md) kind name = Ok (PStr (name ++ "-v" ++ s)).
Proof.
  intros Hmd Hentry. unfold App.metadata_version, App.version_tag.
  assert (Htruthy : Py.truthy (PDict md) = true).
  { cbn. apply negb_true_iff, bool_decide_eq_false_2. intros ->.
    rewrite lookup_empty in Hmd. discriminate. }
  rewrite Htruthy. cbn. rewrite Hmd. cbn. rewrite Hentry. split; reflexivity.
Qed.

(** X11: on a 200 price answer, absent or empty metadata gives version '1.0' in the
    record and 'RandomForestRegressor-v1.0' in the response; a metadata
    version string s gives s and 'RandomForestRegressor-v' ++ s. *)
Theorem model_version_tagging (g : App.globals) (w : App.world) (r : App.response)
    (log : App.sink_log) :
  App.serve (App.predict_price np_convert_object py_str_other g w) = (Some r, log) ->
  App.status r = 200%Z ->
  exists fields record,
    App.body r = App.JsonResult fields
    /\ log = [record]
    /\ (Py.truthy (App.metadata g) = false ->
        record !! "model_version" = Some (PStr "1.0")
        /\ fields !! "model_version" = Some (PStr "RandomForestRegressor-v1.0"))
    /\ (forall md entry s,
          App.metadata g = PDict md -> md !! "price_model" = Some (PDict entry) ->
          entry !! "version" = Some (PStr s) ->
          record !! "model_version" = Some (PStr s)
          /\ fields !! "model_version" = Some (PStr ("RandomForestRegressor-v" ++ s))).
Proof.
  intros Hrun Hok.
  destruct (predict_price_ok_inv _ _ g w r log Hrun Hok)
    as (m & fd & raw & version & tag & _ & _ & Hv & Ht & -> & ->).
  do 2 eexists. split; [reflexivity|]. split; [reflexivity|]. split.
  - intros Hfalsy. unfold App.metadata_version in Hv. unfold App.version_tag in Ht.
    rewrite Hfalsy in Hv, Ht. injection Hv as <-. injection Ht as <-.
    split; reflexivity.
  - intros md entry s Hmd Hkind Hentry. rewrite Hmd in Hv, Ht.
    destruct (version_of_entry md entry "price_model" "RandomForestRegressor" s
                Hkind Hentry) as [Hv' Ht'].
    rewrite Hv' in Hv. rewrite Ht' in Ht. injection Hv as <-. injection Ht as <-.
    split; reflexivity.
Qed.

(** X12: a non-empty metadata object that lacks the model's entry makes an
    otherwise successful prediction answer 500 (KeyError), with nothing
    handed to the sink. *)
Theorem metadata_without_entry_fails (g : App.globals) (w : App.world)
    (md : gmap string pyval) :
  App.metadata g = PDict md -> md <> ∅ ->
  (forall m fd raw, App.price_model g = Some m ->
     inference np_convert_object m g w = Ok (fd, raw) ->
     md !! "price_model" = None ->
     App.serve (App.predict_price np_convert_object py_str_other g w)
     = (Some (error_response (App.StrOf KeyError)), []))
  /\ (forall m fd raw, App.demand_model g = Some m ->
        inference np_convert_object m g w = Ok (fd, raw) ->
        md !! "demand_model" = None ->
        App.serve (App.predict_demand np_convert_object py_str_other g w)
        = (Some (error_response (App.StrOf KeyError)), [])).
Proof.
  intros Hmd Hne.
  assert (Hv : forall kind, md !! kind = None ->
                 App.metadata_version (App.metadata g) kind = Raise KeyError).
  { intros kind Hkind. rewrite Hmd. unfold App.metadata_version.
    assert (Htruthy : Py.truthy (PDict md) = true).
    { cbn. now apply negb_true_iff, bool_decide_eq_false_2. }
    rewrite Htruthy. cbn. now rewrite Hkind. }
  split; intros m fd raw Hm Hi Hkind.
  - rewrite predict_price_run, Hm, Hi. cbv zeta. rewrite (Hv _ Hkind). reflexivity.
  - rewrite predict_demand_run, Hm, Hi. cbv zeta. rewrite (Hv _ Hkind). reflexivity.
Qed.

(** X13: on a 200 answer the record handed to the sink holds the engineered
    features of the request body, the prediction kind, and the same value or
    label and score as the response. *)
Theorem record_mirrors_response (g : App.globals) (w : App.world) (r : App.response)
    (log : App.sink_log) :
  (App.serve (App.predict_price np_convert_object py_str_other g w) = (Some r, log) ->
   App.status r = 200%Z ->
   exists fields record input_data fd,
     App.body r = App.JsonResult fields /\ log = [record]
     /\ App.request_json w = Ok input_data
     /\ App.engineer_features input_data = Ok fd
     /\ record !! "input_features" = Some (PDict fd)
     /\ record !! "prediction_type" = Some (PStr "price")
     /\ record !! "predicted_value" = fields !! "predicted_price"
     /\ record !! "confidence_score" = Some (PFloat (App.random_uniform w))
     /\ fields !! "confidence" = Some (PFloat (App.random_uniform w)))
  /\ (App.serve (App.predict_demand np_convert_object py_str_other g w) = (Some r, log) ->
      App.status r = 200%Z ->
      exists fields record input_data fd,
        App.body r = App.JsonResult fields /\ log = [record]
        /\ App.request_json w = Ok input_data
        /\ App.engineer_features input_data = Ok fd
        /\ record !! "input_features" = Some (PDict fd)
        /\ record !! "prediction_type" = Some (PStr "demand")
        /\ record !! "predicted_class" = fields !! "predicted_class"
        /\ record !! "confidence_score" = fields !! "probability").
Proof.
  split; intros Hrun Hok.
  - destruct (predict_price_ok_inv _ _ g w r log Hrun Hok)
      as (m & fd & raw & version & tag & _ & Hi & _ & _ & -> & ->).
    destruct (inference_inv m g w fd raw Hi) as (input & vec & Hin & Hfd & _).
    do 2 eexists. exists input, fd.
    repeat split; first [assumption|reflexivity].
  - destruct (predict_demand_ok_inv _ _ g w r log Hrun Hok)
      as (m & fd & raw & version & tag & _ & Hi & _ & _ & -> & ->).
    destruct (inference_inv m g w fd raw Hi) as (input & vec & Hin & Hfd & _).
    do 2 eexists. exists input, fd.
    repeat split; first [assumption|reflexivity].
Qed.

End HandlersMore.

Lemma schema_missing_is_server_error_witness :
  App.serve (App.predict_price numpy_rejects str_unknown
               {| App.price_model := Some (fun _ => Ok (Fin 120));
                  App.demand_model := None; App.feature_columns := None;
                  App.metadata := PNone |} sample_world)
  = (Some (error_response (App.StrOf (ValueError "Feature columns not loaded"))), []).
Proof.
  destruct (schema_missing_is_server_error numpy_rejects str_unknown
              {| App.price_model := Some (fun _ => Ok (Fin 120));
                 App.demand_model := None; App.feature_columns := None;
                 App.metadata := PNone |} sample_world (PDict sample_raw) sample_features)
    as [Hprice _].
  - reflexivity.
  - reflexivity.
  - reflexivity.
  - apply (Hprice (fun _ => Ok (Fin 120))). reflexivity.
Defined.

Lemma prediction_id_from_sink_witness :
  exists fields : gmap string pyval, fields !! "prediction_id" = Some (PInt 7).
Proof.
  destruct (prediction_id_from_sink numpy_rejects str_unknown sample_globals sample_world
              (ok_response
                 (price_result (PInt 7) (PInt 10) (Fin 0.8)
                    (PStr "RandomForestRegressor-v1.0")))
              [price_record sample_features (PInt 10) (Fin 0.8) (PStr "1.0")])
    as (fields & record & _ & Hlog & Hid & _).
  - left. reflexivity.
  - reflexivity.
  - exists fields. injection Hlog as <-.
    apply (Hid {[ "id" := PInt 7 ]} []); reflexivity.
Defined.

Lemma model_version_tagging_witness :
  exists fields record : gmap string pyval,
    record !! "model_version" = Some (PStr "1.0")
    /\ fields !! "model_version" = Some (PStr "RandomForestRegressor-v1.0").
Proof.
  destruct (model_version_tagging numpy_rejects str_unknown sample_globals sample_world
              (ok_response
                 (price_result (PInt 7) (PInt 10) (Fin 0.8)
                    (PStr "RandomForestRegressor-v1.0")))
              [price_record sample_features (PInt 10) (Fin 0.8) (PStr "1.0")])
    as (fields & record & _ & _ & Hdefault & _).
  - reflexivity.
  - reflexivity.
  - exists fields, record. apply Hdefault. reflexivity.
Defined.

Lemma metadata_without_entry_fails_witness :
  App.serve (App.predict_price numpy_rejects str_unknown
               {| App.price_model := Some (fun _ => Ok (Fin 120));
                  App.demand_model := None;
                  App.feature_columns := Some feature_names;
                  App.metadata := PDict {[ "feature_columns" := PList [] ]} |}
               sample_world)
  = (Some (error_response (App.StrOf KeyError)), []).
Proof.
  destruct (metadata_without_entry_fails numpy_rejects str_unknown
              {| App.price_model := Some (fun _ => Ok (Fin 120));
                 App.demand_model := None;
                 App.feature_columns := Some feature_names;
                 App.metadata := PDict {[ "feature_columns" := PList [] ]} |}
              sample_world {[ "feature_columns" := PList [] ]}) as [Hprice _].
  - reflexivity.
  - intros Hempty. apply (f_equal (fun m => m !! "feature_columns")) in Hempty.
    discriminate Hempty.
  - apply (Hprice (fun _ => Ok (Fin 120)) sample_features (Fin 120)); reflexivity.
Defined.

Lemma record_mirrors_response_witness :
  exists record : gmap string pyval,
    record !! "input_features" = Some (PDict sample_features)
    /\ record !! "prediction_type" = Some (PStr "demand").
Proof.
  destruct (record_mirrors_response numpy_rejects str_unknown sample_globals sample_world
              (ok_response
                 (demand_result (PInt 7) (Fin 0.5) (PStr "LightGBMClassifier-v1.0")))
              [demand_record sample_features (Fin 0.5) (PStr "1.0")]) as [_ Hdemand].
  destruct Hdemand as (fields & record & input & fd & _ & _ & Hin & Hfd & Hrec & Htype & _).
  - reflexivity.
  - reflexivity.
  - exists record. split; [|exact Htype].
    injection Hin as <-.
    change (Ok sample_features = Ok fd) in Hfd. injection Hfd as <-. exact Hrec.
Defined.

(** ** Start-up and the read-only endpoints *)

(** X14: starting from the initial globals, [load_models] loads an artifact exactly
    when it is stored, loads without raising, and no earlier artifact raised;
    a missing artifact does not stop the later ones. *)
Theorem load_models_outcome (dir : App.model_dir) :
  let g := App.load_models App.unloaded dir in
  App.price_model g = loaded (App.price_model_joblib dir)
  /\ App.demand_model g
     = (if raises (App.price_model_joblib dir) then None
        else loaded (App.demand_model_pkl dir))
  /\ App.feature_columns g
     = (if raises (App.price_model_joblib dir) || raises (App.demand_model_pkl dir)
        then None else loaded (App.feature_columns_joblib dir))
  /\ App.metadata g
     = (if raises (App.price_model_joblib dir) || raises (App.demand_model_pkl dir)
           || raises (App.feature_columns_joblib dir)
        then PNone
        else match loaded (App.metadata_json dir) with Some doc => doc | None => PNone end).
Proof.
  destruct dir as [[|[m1|e1]] [|[m2|e2]] [|[c|e3]] [|[doc|e4]]];
    repeat split; reflexivity.
Qed.

Section Startup.

Variable np_convert_object : pyval -> result pyfloat.
Variable py_str_other : pyval -> string.

Lemma inference_without_schema (m : App.model) (g : App.globals) (w : App.world) :
  App.feature_columns g = None ->
  exists e, inference np_convert_object m g w = Raise e.
Proof.
  intros Hcols. unfold inference.
  destruct (App.request_json w) as [input|e]; cbn [rbind]; [|eauto].
  destruct (App.engineer_features input) as [fd|e]; cbn [rbind]; [|eauto].
  rewrite Hcols. cbn. eauto.
Qed.

(** X15: if the price artifact loads and loading the demand artifact raises, the
    schema is never loaded: every price request is answered with an error
    and nothing reaches the sink, while the health endpoint answers 200
    'healthy' with only the price model flagged as loaded. *)
Theorem corrupt_demand_artifact_disables_price (dir : App.model_dir) (m : App.model)
    (e : exn) :
  App.price_model_joblib dir = App.Stored (Ok m) ->
  App.demand_model_pkl dir = App.Stored (Raise e) ->
  let g := App.load_models App.unloaded dir in
  (forall w, exists reason,
     App.serve (App.predict_price np_convert_object py_str_other g w)
     = (Some (error_response (App.StrOf reason)), []))
  /\ App.health g
     = {| App.body := App.JsonResult
            (<["models_loaded" :=
                 PDict (<["feature_columns" := PBool false]>
                       (<["demand_model" := PBool false]>
                       (<["price_model" := PBool true]> ∅)))]>
             (<["status" := PStr "healthy"]> ∅));
          App.status := 200 |}.
Proof.
  intros Hprice Hdemand g.
  assert (Hg : App.price_model g = Some m /\ App.demand_model g = None
               /\ App.feature_columns g = None).
  { subst g. destruct dir as [price demand cols doc]. cbn in Hprice, Hdemand.
    subst price demand. repeat split; reflexivity. }
  destruct Hg as (Hp & Hd & Hc).
  split.
  - intros w. rewrite predict_price_run, Hp.
    destruct (inference_without_schema m g w Hc) as [reason ->]. eauto.
  - unfold App.health. rewrite Hp, Hd, Hc. reflexivity.
Qed.

(** X16: a metadata document that is not None but has a false truth value (an
    empty object, for one) is served by [get_metadata] with status 200, while
    both prediction handlers treat it as absent and tag version 1.0. *)
Theorem falsy_metadata_served_but_ignored (g : App.globals) :
  App.metadata g <> PNone ->
  Py.truthy (App.metadata g) = false ->
  App.get_metadata g = (inl (App.metadata g), 200%Z)
  /\ (forall w r log,
        App.serve (App.predict_price np_convert_object py_str_other g w) = (Some r, log) ->
        App.status r = 200%Z ->
        exists fields, App.body r = App.JsonResult fields
                       /\ fields !! "model_version"
                          = Some (PStr "RandomForestRegressor-v1.0"))
  /\ (forall w r log,
        App.serve (App.predict_demand np_convert_object py_str_other g w) = (Some r, log) ->
        App.status r = 200%Z ->
        exists fields, App.body r = App.JsonResult fields
                       /\ fields !! "model_version" = Some (PStr "LightGBMClassifier-v1.0")).
Proof.
  intros Hdoc Hfalsy. split; [|split].
  - unfold App.get_metadata. destruct (App.metadata g); [congruence|reflexivity..].
  - intros w r log Hrun Hok.
    destruct (predict_price_ok_inv _ _ g w r log Hrun Hok)
      as (m & fd & raw & version & tag & _ & _ & _ & Ht & _ & ->).
    unfold App.version_tag in Ht. rewrite Hfalsy in Ht. injection Ht as <-.
    eexists. split; reflexivity.
  - intros w r log Hrun Hok.
    destruct (predict_demand_ok_inv _ _ g w r log Hrun Hok)
      as (m & fd & raw & version & tag & _ & _ & _ & Ht & _ & ->).
    unfold App.version_tag in Ht. rewrite Hfalsy in Ht. injection Ht as <-.
    eexists. split; reflexivity.
Qed.

End Startup.

Lemma corrupt_demand_artifact_disables_price_witness :
  exists reason,
    App.serve (App.predict_price numpy_rejects str_unknown
                 (App.load_models App.unloaded
                    {| App.price_model_joblib := App.Stored (Ok (fun _ => Ok (Fin 120)));
                       App.demand_model_pkl := App.Stored (Raise (ExternalError "truncated"));
                       App.feature_columns_joblib := App.Stored (Ok feature_names);
                       App.metadata_json := App.Missing |})
                 sample_world)
    = (Some (error_response (App.StrOf reason)), []).
Proof.
  destruct (corrupt_demand_artifact_disables_price numpy_rejects str_unknown
              {| App.price_model_joblib := App.Stored (Ok (fun _ => Ok (Fin 120)));
                 App.demand_model_pkl := App.Stored (Raise (ExternalError "truncated"));
                 App.feature_columns_joblib := App.Stored (Ok feature_names);
                 App.metadata_json := App.Missing |}
              (fun _ => Ok (Fin 120)) (ExternalError "truncated")) as [Hprice _].
  - reflexivity.
  - reflexivity.
  - apply Hprice.
Defined.

Lemma falsy_metadata_served_but_ignored_witness :
  App.get_metadata
    {| App.price_model := None; App.demand_model := None; App.feature_columns := None;
       App.metadata := PDict ∅ |}
  = (inl (PDict ∅), 200%Z).
Proof.
  destruct (falsy_metadata_served_but_ignored numpy_rejects str_unknown
              {| App.price_model := None; App.demand_model := None;
                 App.feature_columns := None; App.metadata := PDict ∅ |}) as [Hget _].
  - discriminate.
  - reflexivity.
  - exact Hget.
Defined.

(** ** Further agreement between training and serving *)

Lemma trained_row (df : list Train.listing) (i : nat) (r : Train.listing) :
  df !! i = Some r ->
  exists dummies encoded,
    Train.engineer_features df !! i
    = Some (<["neighbourhood_encoded" := encoded]>
            (<["min_nights_ratio" :=
                 PFloat (Train.np_divide (Train.int64_to_float (Train.minimum_nights r))
                           (Train.int64_to_float 365))]>
            (<["reviews_density" :=
                 PFloat (if (0 <? Train.number_of_reviews r)%Z
                         then Train.np_divide (Train.reviews_per_month r)
                                (Train.int64_to_float (Train.number_of_reviews r))
                         else Fin 0)]>
            (<["availability_ratio" :=
                 PFloat (Train.np_divide (Train.availability_365 r)
                           (Train.int64_to_float 365))]> (Train.cells r))))
            ∪ dummies).
Proof.
  intros Hi. unfold Train.engineer_features. cbv zeta.
  rewrite list_lookup_fmap, Hi. cbn [fmap option_fmap option_map].
  eexists (_ ∪ _), _. rewrite <- (assoc_L (∪)). reflexivity.
Qed.

Lemma round_to_double_exact (z : Z) :
  double_exact z = true -> Train.round_to_double z = z.
Proof.
  unfold double_exact. intros Hz. apply Z.leb_le in Hz.
  change (2 ^ 53)%Z with 9007199254740992%Z in Hz.
  unfold Train.round_to_double. cbv zeta.
  destruct (Z.eq_dec (Z.abs z) 9007199254740992%Z) as [Heq|Hne].
  - assert (Hcases : z = 9007199254740992%Z \/ z = (- 9007199254740992)%Z) by lia.
    destruct Hcases as [-> | ->]; reflexivity.
  - destruct (Z.eq_dec z 0%Z) as [->|Hnz]; [reflexivity|].
    assert (Hlog : (Z.log2 (Z.abs z) < 53)%Z).
    { apply Z.log2_lt_pow2; [lia|].
      change (2 ^ 53)%Z with 9007199254740992%Z. lia. }
    destruct (Z.log2 (Z.abs z) - 52 <=? 0)%Z eqn:He; [reflexivity|].
    apply Z.leb_gt in He. lia.
Qed.

(** Beyond 53 bits the two pipelines part: the training frame rounds the
    int64 before it divides, the serving code divides the integers. *)
Example int64_rounding_separates_pipelines :
  Train.np_divide (Train.int64_to_float (2 ^ 53 + 1)) (Train.int64_to_float 365)
  = Fin (9007199254740992 # 365)%Q
  /\ Py.truediv (PInt (2 ^ 53 + 1)) (PInt 365)
     = Ok (PFloat (Fin (9007199254740993 # 365)%Q)).
Proof.
  split; reflexivity.
Qed.

(** X18: for every generated row whose minimum_nights and number_of_reviews
    have at most 53 bits, so that their int64-to-float64 conversion is
    exact, the ten numeric features both pipelines compute (the seven raw
    attributes, availability_ratio, reviews_density and min_nights_ratio)
    hold the same number in the training frame and in the serving feature
    set of that row's raw record. *)
Theorem derived_features_agree (df : list Train.listing) (i : nat) (r : Train.listing) :
  df !! i = Some r ->
  generated r = true ->
  double_exact (Train.minimum_nights r) = true ->
  double_exact (Train.number_of_reviews r) = true ->
  exists trained served,
    Train.engineer_features df !! i = Some trained
    /\ App.engineer_features (Train.raw_record r) = Ok served
    /\ forall key, key ∈ shared_numeric_features ->
         exists t s, trained !! key = Some t /\ served !! key = Some s
                     /\ number_value t = number_value s.
Proof.
  intros Hi Hgen Hmnx Hnrx.
  destruct (trained_row df i r Hi) as (dummies & encoded & Htrained).
  destruct (served_encoding r Hgen) as (served & Hserved & _).
  pose proof Hserved as Hinv. apply engineer_features_inv in Hinv.
  destruct Hinv as (d & ratio & density & nights & enc & Hd & -> & Hratio
                    & (has & Hhas & Hdens) & Hnights & _).
  unfold Train.raw_record in Hd. injection Hd as <-.
  unfold generated in Hgen.
  apply andb_prop in Hgen as [Hgen Hnr]. apply andb_prop in Hgen as [_ Hmn].
  apply int64_in_range in Hnr, Hmn.
  apply round_to_double_exact in Hmnx, Hnrx.
  assert (H365 : Train.int64_to_float 365 = Fin (inject_Z 365)) by reflexivity.
  (* the three derived values on the serving side *)
  change (Ok (PFloat (Py.float_div (Train.availability_365 r) (Fin (inject_Z 365))))
          = Ok ratio) in Hratio.
  injection Hratio as <-.
  change (match Py.round_finite (inject_Z (Train.minimum_nights r) / inject_Z 365) with
          | Fin q => Ok (PFloat (Fin q))
          | _ => Raise OverflowError
          end = Ok nights) in Hnights.
  change (Ok (0 <? Train.number_of_reviews r)%Z = Ok has) in Hhas. injection Hhas as <-.
  assert (Hdensity : number_value density
                     = (if (0 <? Train.number_of_reviews r)%Z
                        then Train.np_divide (Train.reviews_per_month r)
                               (Train.int64_to_float (Train.number_of_reviews r))
                        else Fin 0)).
  { destruct (0 <? Train.number_of_reviews r)%Z eqn:Hpos.
    - change (rbind (Py.int_to_float (Train.number_of_reviews r))
                (fun fy => if Py.float_is_zero fy then Raise ZeroDivisionError
                           else Ok (PFloat (Py.float_div (Train.reviews_per_month r) fy)))
              = Ok density) in Hdens.
      rewrite (int_to_float_in_range _ Hnr) in Hdens. cbn [rbind] in Hdens.
      unfold Train.np_divide, Train.int64_to_float. rewrite Hnrx.
      destruct (Py.float_is_zero (Fin (inject_Z (Train.number_of_reviews r)))) eqn:Hz.
      + discriminate Hdens.
      + injection Hdens as <-. reflexivity.
    - injection Hdens as <-. reflexivity. }
  assert (Hnights' : number_value nights
                     = Train.np_divide (Train.int64_to_float (Train.minimum_nights r))
                         (Train.int64_to_float 365)).
  { rewrite H365. unfold Train.int64_to_float. rewrite Hmnx.
    change (Train.np_divide (Fin (inject_Z (Train.minimum_nights r))) (Fin (inject_Z 365)))
      with (Py.round_finite (inject_Z (Train.minimum_nights r) / inject_Z 365)).
    destruct (Py.round_finite _); [|discriminate Hnights..].
    injection Hnights as <-. reflexivity. }
  eexists. eexists. split; [exact Htrained|]. split; [exact Hserved|].
  intros key Hkey. unfold shared_numeric_features in Hkey.
  repeat (apply elem_of_cons in Hkey as [->|Hkey];
          [do 2 eexists; split; [apply lookup_union_Some_l; reflexivity|];
           split; [reflexivity|];
           first [reflexivity | symmetry; exact Hdensity | symmetry; exact Hnights']|]).
  inversion Hkey.
Qed.

Lemma derived_features_agree_witness :
  exists trained served,
    Train.engineer_features [sample_listing] !! 0%nat = Some trained
    /\ App.engineer_features (Train.raw_record sample_listing) = Ok served
    /\ exists t s, trained !! "reviews_density" = Some t
                   /\ served !! "reviews_density" = Some s
                   /\ number_value t = number_value s.
Proof.
  destruct (derived_features_agree [sample_listing] 0 sample_listing)
    as (trained & served & Ht & Hs & Hagree).
  - reflexivity.
  - reflexivity.
  - reflexivity.
  - reflexivity.
  - exists trained, served. split; [exact Ht|]. split; [exact Hs|].
    apply Hagree. unfold shared_numeric_features.
    do 8 apply list_elem_of_further. apply list_elem_of_here.
Defined.

Lemma one_hot_agrees_witness :
  exists trained served,
    Train.engineer_features [sample_listing] !! 0%nat = Some trained
    /\ App.engineer_features (Train.raw_record sample_listing) = Ok served
    /\ trained !! "room_type_Private room" = Some (PBool true)
    /\ served !! "room_type_Private room" = Some (PInt 1).
Proof.
  destruct (one_hot_agrees [sample_listing] 0 sample_listing)
    as (trained & served & Ht & Hs & Hroom & _).
  - reflexivity.
  - reflexivity.
  - exists trained, served. split; [exact Ht|]. split; [exact Hs|].
    apply (Hroom "Private room").
    + unfold room_types. apply list_elem_of_further, list_elem_of_here.
    + apply list_elem_of_here.
Defined.

Lemma count_elem (v : string) (col : list string) :
  v ∈ col -> (0 < Train.count v col)%nat.
Proof.
  intros Hv. unfold Train.count.
  assert (Hin : v ∈ filter (fun x => x = v) col)
    by (apply list_elem_of_filter; split; [reflexivity|exact Hv]).
  destruct (filter (fun x => x = v) col); [inversion Hin|cbn; lia].
Qed.

Lemma count_le_length (v : string) (col : list string) :
  (Train.count v col <= length col)%nat.
Proof. unfold Train.count. apply length_filter. Qed.

Lemma count_rows (df : list Train.listing) (name : string) :
  Train.count name (Train.neighbourhood <$> df) = length (rows_in df name).
Proof.
  unfold Train.count, rows_in. induction df as [|r df IH]; [reflexivity|].
  rewrite fmap_cons, !filter_cons.
  destruct (decide (Train.neighbourhood r = name)); cbn [length]; rewrite IH; reflexivity.
Qed.

(** X19: the training pipeline keeps the number of rows, and encodes every
    row's neighbourhood as the number of rows of the frame that carry this
    neighbourhood divided by the number of rows of the frame: a finite
    frequency in (0, 1]. *)
Theorem trained_frequency_is_proper (df : list Train.listing) (i : nat)
    (r : Train.listing) :
  df !! i = Some r ->
  length (Train.engineer_features df) = length df
  /\ exists trained q,
       Train.engineer_features df !! i = Some trained
       /\ trained !! "neighbourhood_encoded" = Some (PFloat (Fin q))
       /\ (q == inject_Z (Z.of_nat (length (rows_in df (Train.neighbourhood r))))
                / inject_Z (Z.of_nat (length df)))%Q
       /\ (0 < q)%Q /\ (q <= 1)%Q.
Proof.
  intros Hi. split.
  { unfold Train.engineer_features. cbv zeta. apply length_fmap. }
  destruct (trained_encoding df i r Hi) as (trained & Ht & Henc).
  exists trained. eexists. split; [exact Ht|]. split; [exact Henc|].
  split.
  { unfold trained_frequency. rewrite Qred_correct, count_rows, length_fmap.
    apply Qeq_refl. }
  unfold trained_frequency. rewrite Qred_correct.
  assert (Hname : Train.neighbourhood r ∈ Train.neighbourhood <$> df).
  { apply list_elem_of_fmap. exists r. split; [reflexivity|].
    eapply list_elem_of_lookup_2. exact Hi. }
  pose proof (count_elem _ _ Hname) as Hpos.
  pose proof (count_le_length (Train.neighbourhood r) (Train.neighbourhood <$> df)) as Hle.
  set (c := Train.count _ _) in *. set (n := length _) in *.
  assert (Hn : (0 < Z.of_nat n)%Z) by lia.
  assert (Hc : (0 < Z.of_nat c <= Z.of_nat n)%Z) by lia.
  destruct (Z.of_nat n) as [|p|p]; [lia| |lia].
  unfold Qlt, Qle, Qdiv, Qmult, Qinv, inject_Z. simpl. split; lia.
Qed.

Lemma trained_frequency_is_proper_witness :
  exists (trained : gmap string pyval) (q : Q),
    Train.engineer_features [sample_listing; sample_listing] !! 1%nat = Some trained
    /\ trained !! "neighbourhood_encoded" = Some (PFloat (Fin q))
    /\ (q == inject_Z (Z.of_nat (length (rows_in [sample_listing; sample_listing]
                                           (Train.neighbourhood sample_listing))))
             / inject_Z (Z.of_nat (length [sample_listing; sample_listing])))%Q
    /\ (0 < q)%Q /\ (q <= 1)%Q.
Proof.
  destruct (trained_frequency_is_proper [sample_listing; sample_listing] 1 sample_listing)
    as [_ H].
  - reflexivity.
  - exact H.
Defined.

(** ** The generator and [main] *)

(** X20: [generate_realistic_nyc_airbnb_data] raises on every call,
    whatever the sample count and the random draws: the first eight entries
    of its dict pass numpy's checks, and the ninth draws from the 49 values
    of [range(1, 50)] with 50 probabilities.  [main] calls it first and
    outside any [try]: it never returns normally, and once the models
    directory is made it raises that same error before it engineers
    features, trains or saves any artifact. *)
Theorem generator_always_raises (np_exp : pyfloat -> pyfloat)
    (label_frame : Train.data -> result (list Train.listing))
    (train_and_save : list Train.listing -> result unit)
    (rng : Train.draws) (n_samples : nat) :
  Train.generator_data np_exp rng n_samples
  = Raise (ValueError "'a' and 'p' must have same size")
  /\ Train.generate_realistic_nyc_airbnb_data np_exp label_frame rng n_samples
     = Raise (ValueError "'a' and 'p' must have same size")
  /\ Train.main np_exp label_frame train_and_save (Ok tt) rng
     = Raise (ValueError "'a' and 'p' must have same size")
  /\ forall makedirs,
       exists e, Train.main np_exp label_frame train_and_save makedirs rng = Raise e.
Proof.
  assert (Hdata : forall n, Train.generator_data np_exp rng n
                            = Raise (ValueError "'a' and 'p' must have same size")).
  { intros n. unfold Train.generator_data. cbv zeta. reflexivity. }
  assert (Hgen : forall n, Train.generate_realistic_nyc_airbnb_data np_exp label_frame rng n
                           = Raise (ValueError "'a' and 'p' must have same size")).
  { intros n. unfold Train.generate_realistic_nyc_airbnb_data. rewrite Hdata. reflexivity. }
  split; [apply Hdata|]. split; [apply Hgen|].
  unfold Train.main. split.
  - cbn [rbind]. rewrite Hgen. reflexivity.
  - intros [[]|e]; cbn [rbind]; [rewrite Hgen|]; eexists; reflexivity.
Qed.
